(** * my-researcher: a shallow embedding of [main.py]

    The program answers a user query by alternating between a language model
    and a web-search tool.  This development embeds its three functions
    ([get_url_content], [search_brave], [process_user_query]) as functions
    over an explicit world (network log, console, sleeps) and proves the
    behaviour the specification describes.

    Python values are dynamically typed; every value the program handles
    comes out of a JSON decoder or is a string literal, so one type [json]
    models them all.  A Python [str] is a Rocq [string] whose characters
    are read as the code points 0..255. *)

From Stdlib Require Import ZArith List String Ascii Bool Lia DecimalString.
Import ListNotations.
Open Scope string_scope.
Open Scope Z_scope.

Set Implicit Arguments.
Set Warnings "-register-all".

(* ================================================================== *)
(** ** Python values *)

Module Py.

(** What [json.loads] and [Response.json] produce.  A float is carried by
    the text [json.dumps] writes for it ([float.__repr__], or [NaN],
    [Infinity], [-Infinity]). *)
Inductive json : Type :=
| JNull
| JBool (b : bool)
| JInt (z : Z)
| JFloat (repr : string)
| JStr (s : string)
| JArr (items : list json)
| JObj (fields : list (string * json)).

(** [d.get(key)] on the items of a dict. *)
Fixpoint lookup (key : string) (fields : list (string * json)) : option json :=
  match fields with
  | [] => None
  | (k, v) :: rest => if String.eqb k key then Some v else lookup key rest
  end.

Definition get (fields : list (string * json)) (key : string) (default : json) : json :=
  match lookup key fields with
  | Some v => v
  | None => default
  end.

Definition has_key (key : string) (fields : list (string * json)) : bool :=
  match lookup key fields with Some _ => true | None => false end.

(** Truth value testing ([if not query]). *)
Definition truthy (v : json) : bool :=
  match v with
  | JNull => false
  | JBool b => b
  | JInt z => negb (z =? 0)
  | JFloat r => negb (String.eqb r "0.0" || String.eqb r "-0.0")
  | JStr s => negb (String.eqb s "")
  | JArr l => match l with [] => false | _ => true end
  | JObj l => match l with [] => false | _ => true end
  end.

(** [str(n)] for an int. *)
Definition str_int (z : Z) : string := NilZero.string_of_int (Z.to_int z).

(** The exceptions that can travel through the program.  The first three
    are subclasses of [requests.exceptions.RequestException]; the two JSON
    decode errors are subclasses of [ValueError]; [ValueError] itself is the
    plain class, [RecursionError] a [RuntimeError]. *)
Inductive exn : Type :=
| ConnectionError (msg : string)
| HTTPError (msg : string)
| RequestsJSONDecodeError (msg : string)
| JSONDecodeError (msg : string)
| TypeError (msg : string)
| AttributeError (msg : string)
| KeyError (msg : string)
| UnboundLocalError (msg : string)
| APIError (msg : string)
| ValueError (msg : string)
| RecursionError (msg : string).

Definition is_RequestException (e : exn) : bool :=
  match e with
  | ConnectionError _ | HTTPError _ | RequestsJSONDecodeError _ => true
  | _ => false
  end.

Definition is_ValueError (e : exn) : bool :=
  match e with
  | RequestsJSONDecodeError _ | JSONDecodeError _ | ValueError _ => true
  | _ => false
  end.

(** [str(e)] *)
Definition str_exn (e : exn) : string :=
  match e with
  | ConnectionError m | HTTPError m | RequestsJSONDecodeError m
  | JSONDecodeError m | TypeError m | AttributeError m | KeyError m
  | UnboundLocalError m | APIError m | ValueError m | RecursionError m => m
  end.

(** A document the decoder gives up on although it is JSON: it is nested
    deeper than the interpreter's recursion limit allows ([RecursionError]),
    or it holds an integer with more digits than the interpreter converts
    (a plain [ValueError], where the interpreter has such a limit). *)
Inductive refusal : Type :=
| TooDeep (msg : string)
| TooManyDigits (msg : string).

Definition refusal_exn (r : refusal) : exn :=
  match r with
  | TooDeep msg => RecursionError msg
  | TooManyDigits msg => ValueError msg
  end.

(** A piece of text as a JSON decoder sees it: it is no JSON document (the
    decoder raises [JSONDecodeError], whose message is kept), or the decoder
    gives up on it with another exception, or it is the encoding of one
    value, which the decoder returns. *)
Inductive json_text : Type :=
| NotJSON (msg : string)
| Refused (r : refusal)
| Encodes (v : json).

Inductive res (A : Type) : Type :=
| Ret (a : A)
| Exc (e : exn).
Arguments Exc {A} e.

(** [json.loads] *)
Definition json_loads (t : json_text) : res json :=
  match t with
  | NotJSON msg => Exc (JSONDecodeError msg)
  | Refused r => Exc (refusal_exn r)
  | Encodes v => Ret v
  end.

(** [key in container]: dict membership, list membership, substring of a
    str; anything else is not iterable. *)
Definition contains (key : string) (container : json) : res bool :=
  match container with
  | JObj fields => Ret (has_key key fields)
  | JArr items =>
      Ret (existsb (fun x => match x with JStr s => String.eqb s key | _ => false end) items)
  | JStr s => Ret (match index 0 key s with Some _ => true | None => false end)
  | _ => Exc (TypeError "argument is not iterable")
  end.

(** [container[key]] for a str key. *)
Definition getitem (container : json) (key : string) : res json :=
  match container with
  | JObj fields =>
      match lookup key fields with
      | Some v => Ret v
      | None => Exc (KeyError key)
      end
  | JArr _ => Exc (TypeError "list indices must be integers or slices, not str")
  | JStr _ => Exc (TypeError "string indices must be integers")
  | _ => Exc (TypeError "object is not subscriptable")
  end.

(** [for item in v]: the items v yields. *)
Definition iterate (v : json) : res (list json) :=
  match v with
  | JArr items => Ret items
  | JObj fields => Ret (map (fun kv => JStr (fst kv)) fields)
  | JStr s => Ret (map (fun c => JStr (String c EmptyString)) (list_ascii_of_string s))
  | _ => Exc (TypeError "object is not iterable")
  end.

(** *** [json.dumps(v, indent=2)]

    With the defaults [ensure_ascii=True], item separator [","] and key
    separator [": "]. *)

Definition quote_char : ascii := "034"%char.
Definition backslash : ascii := "092"%char.
Definition newline : ascii := "010"%char.

Definition hex_digit (n : N) : ascii :=
  match n with
  | 0 => "0" | 1 => "1" | 2 => "2" | 3 => "3" | 4 => "4" | 5 => "5"
  | 6 => "6" | 7 => "7" | 8 => "8" | 9 => "9" | 10 => "a" | 11 => "b"
  | 12 => "c" | 13 => "d" | 14 => "e" | _ => "f"
  end%N%char.

Definition escape (c : ascii) : string :=
  let n := N_of_ascii c in
  let esc (x : ascii) := String backslash (String x EmptyString) in
  if (n =? 34)%N then esc quote_char
  else if (n =? 92)%N then esc backslash
  else if (n =? 10)%N then esc "n"%char
  else if (n =? 13)%N then esc "r"%char
  else if (n =? 9)%N then esc "t"%char
  else if (n =? 8)%N then esc "b"%char
  else if (n =? 12)%N then esc "f"%char
  else if ((32 <=? n) && (n <=? 126))%N then String c EmptyString
  else String backslash
         (String "u"%char (String "0"%char (String "0"%char
           (String (hex_digit (n / 16)) (String (hex_digit (n mod 16)) EmptyString))))).

Fixpoint escape_all (s : string) : string :=
  match s with
  | EmptyString => EmptyString
  | String c rest => escape c ++ escape_all rest
  end.

Definition encode_str (s : string) : string :=
  String quote_char (escape_all s ++ String quote_char EmptyString).

Fixpoint spaces (n : nat) : string :=
  match n with
  | O => EmptyString
  | S n' => String " "%char (spaces n')
  end.

Definition newline_indent (level : nat) : string :=
  String newline (spaces (2 * level)).

Fixpoint encode (level : nat) (v : json) {struct v} : string :=
  match v with
  | JNull => "null"
  | JBool true => "true"
  | JBool false => "false"
  | JInt z => str_int z
  | JFloat r => r
  | JStr s => encode_str s
  | JArr [] => "[]"
  | JArr (x :: xs) =>
      "[" ++ newline_indent (S level) ++ encode (S level) x
      ++ (fix more (l : list json) : string :=
            match l with
            | [] => EmptyString
            | y :: ys => "," ++ newline_indent (S level) ++ encode (S level) y ++ more ys
            end) xs
      ++ newline_indent level ++ "]"
  | JObj [] => "{}"
  | JObj ((k, x) :: kvs) =>
      "{" ++ newline_indent (S level) ++ encode_str k ++ ": " ++ encode (S level) x
      ++ (fix more (l : list (string * json)) : string :=
            match l with
            | [] => EmptyString
            | (k', y) :: ys =>
                "," ++ newline_indent (S level) ++ encode_str k' ++ ": "
                ++ encode (S level) y ++ more ys
            end) kvs
      ++ newline_indent level ++ "}"
  end.

Definition json_dumps_indent2 (v : json) : string := encode 0 v.

End Py.
Import Py.

(* ================================================================== *)
(** ** The two dataclasses

    A dataclass stores whatever it is given, so every field is a [json]
    value; [None] is [JNull]. *)

Module URLContent.
Record t : Type := mk {
  title : json;
  text : json;
  error : json
}.
End URLContent.

Module SearchResult.
Record t : Type := mk {
  title : json;
  url : json;
  description : json;
  extra_snippets : json
}.

(** [dataclasses.asdict] *)
Definition asdict (x : t) : json :=
  JObj [("title", title x); ("url", url x); ("description", description x);
        ("extra_snippets", extra_snippets x)].
End SearchResult.

(* ================================================================== *)
(** ** Conversation messages *)

(** A tool-invocation-request as the [openai] client delivers it:
    [function_call.id], [function_call.function.name] and
    [function_call.function.arguments]. *)
Record ToolCall : Type := mkToolCall {
  id : string;
  name : string;
  arguments : json_text
}.

(** [response.choices[0].message] *)
Record ChatCompletionMessage : Type := mkReply {
  content : option string;
  tool_calls : option (list ToolCall)
}.

(** An element of [history]. *)
Inductive Message : Type :=
| RoleContent (role : string) (text : string)
| ToolResponse (tool_call_id : string) (text : string)
| Assistant (m : ChatCompletionMessage).

(* ================================================================== *)
(** ** The world and the effect monad *)

(** One request handed to the [requests] library. *)
Inductive NetCall : Type :=
| GET (url : string) (headers : list (string * string)) (params : list (string * json))
| POST (url : string) (headers : list (string * string)) (payload : json).

Record World : Type := mkWorld {
  net : list NetCall;             (* requests issued, oldest first *)
  stdout : list string;           (* lines printed, oldest first *)
  slept : list Z;                 (* arguments of time.sleep, oldest first *)
  asked : list (list Message)     (* the conversation at each model call *)
}.

Definition world0 : World := mkWorld [] [] [] [].

(** The world after one more request, one more printed line, one more
    sleep, one more call of the model. *)
Definition sent (c : NetCall) (w : World) : World :=
  mkWorld (net w ++ [c]) (stdout w) (slept w) (asked w).

Definition printed (line : string) (w : World) : World :=
  mkWorld (net w) (stdout w ++ [line]) (slept w) (asked w).

Definition paused (seconds : Z) (w : World) : World :=
  mkWorld (net w) (stdout w) (slept w ++ [seconds]) (asked w).

Definition consulted (history : list Message) (w : World) : World :=
  mkWorld (net w) (stdout w) (slept w) (asked w ++ [history]).

(** A computation either returns, raises, or (for a loop run with too
    little fuel) has not finished. *)
Inductive outcome (A : Type) : Type :=
| Returns (a : A) (w : World)
| Raises (e : exn) (w : World)
| OutOfFuel.
Arguments Raises {A} e w.
Arguments OutOfFuel {A}.

Definition M (A : Type) : Type := World -> outcome A.

Definition ret {A} (a : A) : M A := fun w => Returns a w.
Definition raise {A} (e : exn) : M A := fun w => Raises e w.

Definition bind {A B} (m : M A) (f : A -> M B) : M B :=
  fun w =>
    match m w with
    | Returns a w' => f a w'
    | Raises e w' => Raises e w'
    | OutOfFuel => OutOfFuel
    end.

(** [try: m  except C as e: handler e] where [catches] decides
    [isinstance(e, C)]. *)
Definition try_except {A} (m : M A) (catches : exn -> bool) (handler : exn -> M A) : M A :=
  fun w =>
    match m w with
    | Raises e w' => if catches e then handler e w' else Raises e w'
    | o => o
    end.

Definition lift {A} (r : res A) : M A :=
  match r with
  | Ret a => ret a
  | Exc e => raise e
  end.

Declare Scope py_scope.
Delimit Scope py_scope with py.
Notation "x <- m ;; k" := (bind m (fun x => k))
  (at level 61, m at next level, right associativity) : py_scope.
Notation "m ;;; k" := (bind m (fun _ => k))
  (at level 61, right associativity) : py_scope.
Open Scope py_scope.

Definition print (line : string) : M unit :=
  fun w => Returns tt (printed line w).

Definition sleep (seconds : Z) : M unit :=
  fun w => Returns tt (paused seconds w).

(* ================================================================== *)
(** ** The libraries the program calls *)

Record Response : Type := mkResponse {
  status_code : Z;
  reason : string;
  resp_url : string;
  body : json_text
}.

(** Since release 2.27 [Response.json] catches the decoder's
    [JSONDecodeError] and raises [requests.exceptions.JSONDecodeError],
    which derives from both [RequestException] and [json.JSONDecodeError];
    before, it let the decoder's own error through.  No release wraps
    another exception of the decoder. *)
Inductive requests_release : Type :=
| before_2_27
| since_2_27.

(** What the program's surroundings decide. *)
Record Env : Type := mkEnv {
  (** [os.environ] *)
  environ : string -> option string;
  release : requests_release;
  (** the answer to the [n]-th request of the run ([n] counts from 0) *)
  transport : nat -> NetCall -> res Response;
  (** [openai.chat.completions.create(...).choices[0].message] for a
      conversation and a tool list *)
  completion : list Message -> json -> res ChatCompletionMessage
}.

Section Program.
Variable env : Env.

Definition request (c : NetCall) : M Response :=
  fun w =>
    match transport env (List.length (net w)) c with
    | Ret r => Returns r (sent c w)
    | Exc e => Raises e (sent c w)
    end.

(** [Response.raise_for_status]: only the 4xx and 5xx codes raise. *)
Definition raise_for_status (r : Response) : M unit :=
  if (400 <=? status_code r) && (status_code r <? 500) then
    raise (HTTPError (str_int (status_code r) ++ " Client Error: " ++ reason r
                      ++ " for url: " ++ resp_url r))
  else if (500 <=? status_code r) && (status_code r <? 600) then
    raise (HTTPError (str_int (status_code r) ++ " Server Error: " ++ reason r
                      ++ " for url: " ++ resp_url r))
  else ret tt.

(** [Response.json]: the decoder's [JSONDecodeError] is replaced by the
    library's own since 2.27; any other exception of the decoder passes
    through unchanged. *)
Definition Response_json (r : Response) : M json :=
  match body r with
  | Encodes v => ret v
  | NotJSON msg =>
      match release env with
      | since_2_27 => raise (RequestsJSONDecodeError msg)
      | before_2_27 => raise (JSONDecodeError msg)
      end
  | Refused why => raise (refusal_exn why)
  end.

(** [os.environ.get(key, default)] *)
Definition environ_get (key default : string) : string :=
  match environ env key with
  | Some v => v
  | None => default
  end.

(* ------------------------------------------------------------------ *)
(** ** URL content grabber *)

Definition convert_url : string :=
  "https://fun-readable-cd6ed9e43b50.herokuapp.com/convert".

(** [URLContent(title=..., text=..., error=...)] *)
Definition mkContent (title text error : json) : URLContent.t :=
  URLContent.mk title text error.

(** The constructor applied to the unpacked dict [content] (the double-star
    call): the keyword arguments must be those of the dataclass, [title] and [text] are required, [error] defaults to
    [None]; the values are stored unchecked. *)
Definition URLContent_kwargs (content : json) : res URLContent.t :=
  match content with
  | JObj fields =>
      if forallb (fun kv => String.eqb (fst kv) "title" || String.eqb (fst kv) "text"
                            || String.eqb (fst kv) "error") fields
      then
        match lookup "title" fields, lookup "text" fields with
        | Some title, Some text => Ret (mkContent title text (get fields "error" JNull))
        | _, _ => Exc (TypeError "missing required positional arguments")
        end
      else Exc (TypeError "got an unexpected keyword argument")
  | _ => Exc (TypeError "argument after ** must be a mapping")
  end.

Definition get_url_content (url : string) : M URLContent.t :=
  let headers := [("accept", "application/json"); ("Content-Type", "application/json")] in
  let data := JObj [("url", JStr url); ("is_blog", JBool true)] in
  response <- request (POST convert_url headers data) ;;
  if negb (status_code response =? 200) then
    ret (mkContent (JStr "") (JStr "")
           (JStr ("Error: " ++ str_int (status_code response))))
  else
    try_except
      (content <- Response_json response ;;
       lift (URLContent_kwargs content))
      is_ValueError
      (fun e => ret (mkContent (JStr "") (JStr "")
                       (JStr ("Error parsing response: " ++ str_exn e)))).

(* ------------------------------------------------------------------ *)
(** ** Brave Search tool *)

Definition search_url : string := "https://api.search.brave.com/res/v1/web/search".
Definition max_retries : Z := 3.
Definition backoff_factor : Z := 2.

(** How the [while] loop of [search_brave] is left. *)
Inductive loop_exit : Type :=
| Break (results_json : json)                 (* [break] *)
| Return (results : list SearchResult.t)      (* [return []] in the handler *)
| Exhausted.                                  (* the loop condition is false *)

(** One pass of the [try] body. *)
Definition attempt (headers : list (string * string)) (params : list (string * json))
  : M loop_exit :=
  response <- request (GET search_url headers params) ;;
  raise_for_status response ;;;
  results_json <- Response_json response ;;
  print "Got results" ;;;
  ret (Break results_json).

Fixpoint attempts (fuel : nat) (headers : list (string * string))
    (params : list (string * json)) (retries : Z) : M loop_exit :=
  match fuel with
  | O => fun _ => OutOfFuel
  | S fuel' =>
      if retries <? max_retries then
        try_except (attempt headers params) is_RequestException
          (fun e =>
             print ("HTTP Request failed: " ++ str_exn e ++ ", retrying...") ;;;
             let retries := retries + 1 in
             if retries <? max_retries then
               sleep (backoff_factor ^ retries) ;;;
               attempts fuel' headers params retries
             else ret (Return []))
      else ret Exhausted
  end.

(** [SearchResult(title=item.get('title', ''), ...)] *)
Definition result_of_item (item : json) : res SearchResult.t :=
  match item with
  | JObj fields =>
      Ret (SearchResult.mk (get fields "title" (JStr "")) (get fields "url" (JStr ""))
             (get fields "description" (JStr "")) (get fields "extra_snippets" (JArr [])))
  | _ => Exc (AttributeError "object has no attribute 'get'")
  end.

Fixpoint results_of_items (items : list json) : res (list SearchResult.t) :=
  match items with
  | [] => Ret []
  | item :: rest =>
      match result_of_item item with
      | Exc e => Exc e
      | Ret r =>
          match results_of_items rest with
          | Exc e => Exc e
          | Ret rs => Ret (r :: rs)
          end
      end
  end.

(** Lines 130-139: [results_json.get('web', {}).get('results', [])] and the
    loop over it. *)
Definition parse_results (results_json : json) : res (list SearchResult.t) :=
  match results_json with
  | JObj top =>
      match get top "web" (JObj []) with
      | JObj web =>
          match iterate (get web "results" (JArr [])) with
          | Exc e => Exc e
          | Ret items => results_of_items items
          end
      | _ => Exc (AttributeError "object has no attribute 'get'")
      end
  | _ => Exc (AttributeError "object has no attribute 'get'")
  end.

(** The loop runs at most [max_retries] passes; one more unit of fuel lets
    it see its condition fail. *)
Definition search_fuel : nat := 4.

Definition search_brave (query : json) (count : Z) : M (list SearchResult.t) :=
  if negb (truthy query) then ret []
  else
    let headers := [("Accept", "application/json");
                    ("X-Subscription-Token", environ_get "BRAVE_SEARCH_AI_API_KEY" "")] in
    if negb (truthy (JStr (environ_get "BRAVE_SEARCH_AI_API_KEY" ""))) then
      print "Error: Missing Brave Search API key." ;;;
      ret []
    else
      let params := [("q", query); ("count", JInt count)] in
      exit <- attempts search_fuel headers params 0 ;;
      match exit with
      | Return results => ret results
      | Break results_json => lift (parse_results results_json)
      | Exhausted => raise (UnboundLocalError "results_json")
      end.

(* ------------------------------------------------------------------ *)
(** ** Main system *)

Definition first_llm_system_prompt : string :=
  "You are a language model. Your task is to answer the complex queries of the user. You can use brave search to search internet and get not just links and title and small description, but also a deep dive into the original content of certain pages."
  ++ String newline (String newline
  "You can perform multiple search requests with breakdown'd queries, and do multi-turn requests before answering the user's queries.").

Definition brave_search_tools : json :=
  JArr [JObj [
    ("type", JStr "function");
    ("function", JObj [
      ("name", JStr "search_brave");
      ("description",
        JStr "Search the web using Brave Search API and returns structured search results.");
      ("parameters", JObj [
        ("type", JStr "object");
        ("properties", JObj [
          ("query", JObj [("type", JStr "string");
                          ("description", JStr "The search query string.")])]);
        ("required", JArr [JStr "query"])])])]].

Definition ask_llm (messages : list Message) (tools : json) : M ChatCompletionMessage :=
  fun w =>
    match completion env messages tools with
    | Ret m => Returns m (consulted messages w)
    | Exc e => Raises e (consulted messages w)
    end.

(** [if assistant_message.tool_calls]: [None] and the empty list are false. *)
Definition has_tool_calls (m : ChatCompletionMessage) : bool :=
  match tool_calls m with
  | Some (_ :: _) => true
  | _ => false
  end.

Definition pending (m : ChatCompletionMessage) : list ToolCall :=
  match tool_calls m with
  | Some calls => calls
  | None => []
  end.

(** The body of the [for] loop, up to the message it appends. *)
Definition tool_call_response (function_call : ToolCall) : M Message :=
  args <- lift (json_loads (arguments function_call)) ;;
  text <-
    (if String.eqb (name function_call) "search_brave" then
       has_query <- lift (contains "query" args) ;;
       if has_query : bool then
         query <- lift (getitem args "query") ;;
         search_result <- search_brave query 10 ;;
         ret (json_dumps_indent2 (JArr (map SearchResult.asdict search_result)))
       else ret "No query found in arguments"
     else ret "") ;;
  ret (ToolResponse (id function_call) text).

Fixpoint run_tool_calls (calls : list ToolCall) (history : list Message)
  : M (list Message) :=
  match calls with
  | [] => ret history
  | function_call :: rest =>
      tool_call_response <- tool_call_response function_call ;;
      run_tool_calls rest (history ++ [tool_call_response])%list
  end.

(** One pass of the [while True] body: [inl] is the conversation the next
    pass starts from, [inr] the value the function returns. *)
Definition turn (history : list Message) : M (list Message + option string) :=
  assistant_message <- ask_llm history brave_search_tools ;;
  let history := (history ++ [Assistant assistant_message])%list in
  if has_tool_calls assistant_message then
    (match content assistant_message with
     | Some (String c s) => print (String c s)
     | _ => ret tt
     end) ;;;
    history <- run_tool_calls (pending assistant_message) history ;;
    ret (inl history)
  else ret (inr (content assistant_message)).

Fixpoint conversation (fuel : nat) (history : list Message) : M (option string) :=
  match fuel with
  | O => fun _ => OutOfFuel
  | S fuel' =>
      next <- turn history ;;
      match next with
      | inl history' => conversation fuel' history'
      | inr answer => ret answer
      end
  end.

Definition initial_history (query : string) : list Message :=
  ([RoleContent "system" first_llm_system_prompt] ++ [RoleContent "user" query])%list.

Definition process_user_query (fuel : nat) (query : string) : M (option string) :=
  conversation fuel (initial_history query).

End Program.

(* ================================================================== *)
(** ** The rest of the module: printing a search result, the entry point *)

Module PyStr.

(** [str(x)] of a float, from the text [json.dumps] writes for it. *)
Definition float_str (r : string) : string :=
  if String.eqb r "NaN" then "nan"
  else if String.eqb r "Infinity" then "inf"
  else if String.eqb r "-Infinity" then "-inf"
  else r.

Definition apostrophe : ascii := "039"%char.

Fixpoint occurs (c : ascii) (s : string) : bool :=
  match s with
  | EmptyString => false
  | String c' rest => Ascii.eqb c c' || occurs c rest
  end.

Definition hex2 (n : N) : string :=
  String backslash
    (String "x"%char (String (hex_digit (n / 16)) (String (hex_digit (n mod 16)) EmptyString))).

(** One character of [repr(s)], the str being delimited by [quote]: the
    delimiter and the backslash are escaped, tab, newline and carriage
    return get their letter, the other characters that are not printable
    (below 32, 127..160 and 173 among the code points up to 255) are
    written in hexadecimal. *)
Definition repr_char (quote c : ascii) : string :=
  let n := N_of_ascii c in
  if (Ascii.eqb c quote || (n =? 92)%N)%bool then String backslash (String c EmptyString)
  else if (n =? 9)%N then String backslash "t"
  else if (n =? 10)%N then String backslash "n"
  else if (n =? 13)%N then String backslash "r"
  else if ((n <? 32) || (n =? 127))%N then hex2 n
  else if (n <? 127)%N then String c EmptyString
  else if ((n <=? 160) || (n =? 173))%N then hex2 n
  else String c EmptyString.

Fixpoint repr_chars (quote : ascii) (s : string) : string :=
  match s with
  | EmptyString => EmptyString
  | String c rest => repr_char quote c ++ repr_chars quote rest
  end.

(** [repr(s)] for a str: single quotes, unless the str holds a single quote
    and no double quote. *)
Definition repr_str (s : string) : string :=
  let quote := if occurs apostrophe s && negb (occurs quote_char s)
               then quote_char else apostrophe in
  String quote (repr_chars quote s ++ String quote EmptyString).

(** [repr(v)] *)
Fixpoint repr (v : json) {struct v} : string :=
  match v with
  | JNull => "None"
  | JBool true => "True"
  | JBool false => "False"
  | JInt z => str_int z
  | JFloat r => float_str r
  | JStr s => repr_str s
  | JArr [] => "[]"
  | JArr (x :: xs) =>
      "[" ++ repr x
      ++ (fix more (l : list json) : string :=
            match l with
            | [] => EmptyString
            | y :: ys => ", " ++ repr y ++ more ys
            end) xs
      ++ "]"
  | JObj [] => "{}"
  | JObj ((k, x) :: kvs) =>
      "{" ++ repr_str k ++ ": " ++ repr x
      ++ (fix more (l : list (string * json)) : string :=
            match l with
            | [] => EmptyString
            | (k', y) :: ys => ", " ++ repr_str k' ++ ": " ++ repr y ++ more ys
            end) kvs
      ++ "}"
  end.

(** [str(v)], which is what a replacement field of an f-string writes. *)
Definition str (v : json) : string :=
  match v with
  | JStr s => s
  | _ => repr v
  end.

Fixpoint join_strs (sep : string) (items : list string) : string :=
  match items with
  | [] => EmptyString
  | [x] => x
  | x :: rest => x ++ sep ++ join_strs sep rest
  end.

(** The items as strs, if they all are. *)
Fixpoint all_strs (items : list json) : option (list string) :=
  match items with
  | [] => Some []
  | JStr s :: rest =>
      match all_strs rest with
      | Some ss => Some (s :: ss)
      | None => None
      end
  | _ :: _ => None
  end.

(** [sep.join(v)] *)
Definition join (sep : string) (v : json) : res string :=
  match iterate v with
  | Exc e => Exc e
  | Ret items =>
      match all_strs items with
      | Some ss => Ret (join_strs sep ss)
      | None => Exc (TypeError "sequence item: expected str instance")
      end
  end.

End PyStr.

(** [SearchResult.__str__] *)
Definition SearchResult_str (self : SearchResult.t) : res string :=
  match PyStr.join ", " (SearchResult.extra_snippets self) with
  | Exc e => Exc e
  | Ret snippets =>
      Ret ("Title: " ++ PyStr.str (SearchResult.title self) ++ String newline
           ("URL: " ++ PyStr.str (SearchResult.url self) ++ String newline
           ("Description: " ++ PyStr.str (SearchResult.description self) ++ String newline
           ("Extra Snippets: " ++ snippets))))
  end.

(** [input(prompt)]: the prompt is written to the console, then the line
    typed is returned, or the exception of a closed input is raised. *)
Definition input (prompt : string) (typed : res string) : M string :=
  fun w =>
    match typed with
    | Ret line => Returns line (printed prompt w)
    | Exc e => Raises e (printed prompt w)
    end.

(** The body of [if __name__ == "__main__"]. *)
Definition main (env : Env) (fuel : nat) (typed : res string) : M unit :=
  user_question <- input "What's your question? " typed ;;
  response <- process_user_query env fuel user_question ;;
  print ("Response: " ++ match response with
                         | Some answer => answer
                         | None => "None"
                         end).

(* ================================================================== *)
(** * Vocabulary of the properties *)

(** ** Content records *)

(** The request [get_url_content] posts. *)
Definition convert_request (url : string) : NetCall :=
  POST convert_url [("accept", "application/json"); ("Content-Type", "application/json")]
    (JObj [("url", JStr url); ("is_blog", JBool true)]).

(** An error record: empty title and text, [error] a string. *)
Definition error_record (msg : string) : URLContent.t :=
  URLContent.mk (JStr "") (JStr "") (JStr msg).

(** The invariant the data model asks of a content record. *)
Definition one_side_meaningful (r : URLContent.t) : Prop :=
  (URLContent.error r <> JNull ->
     URLContent.title r = JStr "" /\ URLContent.text r = JStr "")
  /\ (URLContent.title r <> JStr "" \/ URLContent.text r <> JStr "" ->
        URLContent.error r = JNull).

(** ** Concrete surroundings for the content tool *)

Module Scenario.

(** No credential, a network that is down, a model service that fails. *)
Definition offline : Env :=
  mkEnv (fun _ => None) since_2_27
        (fun _ _ => Exc (ConnectionError "connection refused"))
        (fun _ _ => Exc (APIError "unreachable")).

(** Every request is answered by [response]. *)
Definition answering (rel : requests_release) (response : Response) : Env :=
  mkEnv (fun key => if String.eqb key "BRAVE_SEARCH_AI_API_KEY" then Some "secret" else None)
        rel
        (fun _ _ => Ret response)
        (fun _ _ => Exc (APIError "unreachable")).

Definition not_found : Response :=
  mkResponse 404 "Not Found" convert_url (NotJSON "Expecting value: line 1 column 1 (char 0)").

Definition garbled : Response :=
  mkResponse 200 "OK" convert_url (NotJSON "Expecting value: line 1 column 1 (char 0)").

(** A well-formed JSON body of the wrong shape: the empty object. *)
Definition empty_object : Response :=
  mkResponse 200 "OK" convert_url (Encodes (JObj [])).

(** A well-formed body that carries all three fields of the dataclass. *)
Definition page_with_error : Response :=
  mkResponse 200 "OK" convert_url
    (Encodes (JObj [("title", JStr "T"); ("text", JStr "X"); ("error", JStr "E")])).

(** A body of a hundred thousand opening brackets: the decoder runs out of
    recursion depth. *)
Definition too_deep : Response :=
  mkResponse 200 "OK" convert_url
    (Refused (TooDeep "maximum recursion depth exceeded while decoding a JSON array")).

(** A body that is one integer of five thousand digits. *)
Definition many_digits : Response :=
  mkResponse 200 "OK" convert_url
    (Refused (TooManyDigits "Exceeds the limit (4300 digits) for integer string conversion")).

End Scenario.

(** ** Attempts of the search tool *)

Definition api_key (env : Env) : string := environ_get env "BRAVE_SEARCH_AI_API_KEY" "".

Definition search_headers (env : Env) : list (string * string) :=
  [("Accept", "application/json"); ("X-Subscription-Token", api_key env)].

Definition search_params (query : json) (count : Z) : list (string * json) :=
  [("q", query); ("count", JInt count)].

(** The request [search_brave] sends at each attempt. *)
Definition search_request (env : Env) (query : json) (count : Z) : NetCall :=
  GET search_url (search_headers env) (search_params query count).

(** The exception [raise_for_status] raises for a response, if any. *)
Definition http_error (r : Response) : option exn :=
  if (400 <=? status_code r) && (status_code r <? 500) then
    Some (HTTPError (str_int (status_code r) ++ " Client Error: " ++ reason r
                     ++ " for url: " ++ resp_url r))
  else if (500 <=? status_code r) && (status_code r <? 600) then
    Some (HTTPError (str_int (status_code r) ++ " Server Error: " ++ reason r
                     ++ " for url: " ++ resp_url r))
  else None.

(** What [Response.json] raises for a body that is no JSON document. *)
Definition decode_error (env : Env) (msg : string) : exn :=
  match release env with
  | since_2_27 => RequestsJSONDecodeError msg
  | before_2_27 => JSONDecodeError msg
  end.

(** What the [try] body makes of the transport's answer: the exception it
    raises, or the decoded body it breaks out of the loop with. *)
Definition attempt_result (env : Env) (o : res Response) : exn + json :=
  match o with
  | Exc e => inl e
  | Ret r =>
      match http_error r with
      | Some e => inl e
      | None =>
          match body r with
          | NotJSON msg => inl (decode_error env msg)
          | Refused why => inl (refusal_exn why)
          | Encodes v => inr v
          end
      end
  end.

(** The attempt ends in the [except] clause. *)
Definition attempt_fails (env : Env) (o : res Response) : bool :=
  match attempt_result env o with
  | inl e => is_RequestException e
  | inr _ => false
  end.

(** A transport-level failure: the request itself raised a
    [RequestException], or the status is one [raise_for_status] raises on
    (400..599). *)
Definition transport_failure (o : res Response) : bool :=
  match o with
  | Exc e => is_RequestException e
  | Ret r => (400 <=? status_code r) && (status_code r <? 600)
  end.

Definition retry_line (e : exn) : string :=
  "HTTP Request failed: " ++ str_exn e ++ ", retrying...".

(** The world after an attempt that ended in the handler. *)
Definition after_failure (c : NetCall) (e : exn) (w : World) : World :=
  printed (retry_line e) (sent c w).

(** The sleeps of [k] consecutive retries, the counter being [retries]
    before the first of them. *)
Fixpoint delays (retries : Z) (k : nat) : list Z :=
  match k with
  | O => []
  | S k' => backoff_factor ^ (retries + 1) :: delays (retries + 1) k'
  end.

(** What is left of [search_brave] once both guards are passed. *)
Definition search_main (env : Env) (query : json) (count : Z) : M (list SearchResult.t) :=
  exit <- attempts env search_fuel (search_headers env) (search_params query count) 0 ;;
  match exit with
  | Return results => ret results
  | Break results_json => lift (parse_results results_json)
  | Exhausted => raise (UnboundLocalError "results_json")
  end.

(** ** Concrete surroundings for the search tool *)

Module SearchScenario.

(** A credential is set and the network is down. *)
Definition unreachable : Env :=
  mkEnv (fun key => if String.eqb key "BRAVE_SEARCH_AI_API_KEY" then Some "secret" else None)
        since_2_27
        (fun _ _ => Exc (ConnectionError "connection refused"))
        (fun _ _ => Exc (APIError "unreachable")).

(** A 3xx answer that is not followed, with a well-formed body. *)
Definition multiple_choices : Response :=
  mkResponse 300 "Multiple Choices" search_url
    (Encodes (JObj [("web", JObj [("results", JArr [JObj [("title", JStr "t")]])])])).

(** A 2xx answer whose body is no JSON document. *)
Definition ok_garbled : Response :=
  mkResponse 200 "OK" search_url (NotJSON "Expecting value: line 1 column 1 (char 0)").

(** A 2xx answer whose body is one integer of five thousand digits. *)
Definition ok_many_digits : Response :=
  mkResponse 200 "OK" search_url
    (Refused (TooManyDigits "Exceeds the limit (4300 digits) for integer string conversion")).

End SearchScenario.

(** ** Turns of the loop *)

(** The world after the echo of a tool-requesting reply's text. *)
Definition echoed (m : ChatCompletionMessage) (w : World) : World :=
  match content m with
  | Some (String c s) => printed (String c s) w
  | _ => w
  end.

(** The tool calls of one reply answered in order, each from the world the
    previous one left. *)
Inductive answered (env : Env) : list ToolCall -> World -> list Message -> World -> Prop :=
| answered_nil w : answered env [] w [] w
| answered_cons function_call rest w m w1 ms w2 :
    tool_call_response env function_call w = Returns m w1 ->
    answered env rest w1 ms w2 ->
    answered env (function_call :: rest) w (m :: ms) w2.

(** A message is the tool result of a given request. *)
Definition tagged (function_call : ToolCall) (m : Message) : Prop :=
  exists text, m = ToolResponse (id function_call) text.

(** ** Concrete models *)

Module LoopScenario.

(** The model answers at once, with the text 42. *)
Definition forty_two : Env :=
  mkEnv (fun _ => None) since_2_27
        (fun _ _ => Exc (ConnectionError "connection refused"))
        (fun _ _ => Ret (mkReply (Some "42") None)).

(** The model asks for a tool nobody handles, at every turn. *)
Definition restless : Env :=
  mkEnv (fun _ => None) since_2_27
        (fun _ _ => Exc (ConnectionError "connection refused"))
        (fun _ _ => Ret (mkReply None
                           (Some [mkToolCall "call_0" "lookup" (Encodes (JObj []))]))).

(** The model asks for a search with an argument blob that is no JSON. *)
Definition truncated_call : ToolCall :=
  mkToolCall "call_1" "search_brave"
    (NotJSON "Unterminated string starting at: line 1 column 11 (char 10)").

Definition careless : Env :=
  mkEnv (fun _ => None) since_2_27
        (fun _ _ => Exc (ConnectionError "connection refused"))
        (fun _ _ => Ret (mkReply None (Some [truncated_call]))).

End LoopScenario.

Module ToolScenario.

(** The search answers with a well-formed body that lists no result. *)
Definition no_hits : Response :=
  mkResponse 200 "OK" search_url (Encodes (JObj [("web", JObj [("results", JArr [])])])).

Definition searching : Env := Scenario.answering since_2_27 no_hits.

Definition search_call : ToolCall :=
  mkToolCall "call_7" "search_brave" (Encodes (JObj [("query", JStr "rocq")])).






(** A model that first asks for one search and then answers. *)
Definition first_reply : ChatCompletionMessage :=
  mkReply (Some "Let me look that up.")
          (Some [mkToolCall "call_7" "search_brave" (Encodes (JObj [("query", JStr "x")]))]).

Definition second_reply : ChatCompletionMessage := mkReply (Some "done") (Some []).

Definition researcher : Env :=
  mkEnv (fun key => if String.eqb key "BRAVE_SEARCH_AI_API_KEY" then Some "secret" else None)
        since_2_27
        (fun _ _ => Ret no_hits)
        (fun history _ =>
           match history with
           | [_; _] => Ret first_reply
           | _ => Ret second_reply
           end).

Definition quoted (s : string) : string :=
  String quote_char (s ++ String quote_char EmptyString).

Definition line (indent : string) (s : string) : string :=
  String newline (indent ++ s).

End ToolScenario.

(** ** Further vocabulary *)

(** The world a finished computation leaves. *)
Definition final_world {A : Type} (o : outcome A) : option World :=
  match o with
  | Returns _ w => Some w
  | Raises _ w => Some w
  | OutOfFuel => None
  end.

(** A decoded body the dataclass constructor accepts: an object whose keys
    are among [title], [text], [error], with [title] and [text] present. *)
Definition expected_shape (v : json) : Prop :=
  exists fields title text,
    v = JObj fields
    /\ (forall k x, In (k, x) fields -> k = "title" \/ k = "text" \/ k = "error")
    /\ lookup "title" fields = Some title
    /\ lookup "text" fields = Some text.

(** The search result built from the fields of one item. *)
Definition record_of (fields : list (string * json)) : SearchResult.t :=
  SearchResult.mk (get fields "title" (JStr "")) (get fields "url" (JStr ""))
    (get fields "description" (JStr "")) (get fields "extra_snippets" (JArr [])).

(** A request of the loop's search tool: a GET with the credential header,
    some query and the default count. *)
Definition is_search_request (env : Env) (c : NetCall) : Prop :=
  exists query, c = search_request env query 10.

(** The conversations the model is shown from a conversation [h] on: [h]
    itself; then, when the model's reply [m] to [h] carries requests and
    they are all answered, [h] extended by that reply and the tool results
    [msgs] of its requests, one per request; and so on. *)
Inductive shown (env : Env) : list Message -> list (list Message) -> Prop :=
| shown_last h : shown env h [h]
| shown_next h m msgs rest :
    completion env h brave_search_tools = Ret m ->
    has_tool_calls m = true ->
    (exists w w', answered env (pending m) w msgs w') ->
    Forall2 tagged (pending m) msgs ->
    shown env (h ++ Assistant m :: msgs) rest ->
    shown env h (h :: rest).

Module ExtraScenario.

(** A page the content service converted. *)
Definition page : Response :=
  mkResponse 200 "OK" convert_url
    (Encodes (JObj [("title", JStr "T"); ("text", JStr "X")])).

(** A page with a field the dataclass does not have. *)
Definition page_with_author : Response :=
  mkResponse 200 "OK" convert_url
    (Encodes (JObj [("title", JStr "T"); ("text", JStr "X"); ("author", JStr "A")])).

(** Two hits, the second without a description. *)
Definition first_hit : list (string * json) :=
  [("title", JStr "Rocq"); ("url", JStr "https://rocq-prover.org");
   ("description", JStr "A proof assistant"); ("extra_snippets", JArr [JStr "a"; JStr "b"])].

Definition second_hit : list (string * json) :=
  [("title", JStr "Stdlib"); ("url", JStr "https://rocq-prover.org/stdlib")].

Definition two_hits : Response :=
  mkResponse 200 "OK" search_url
    (Encodes (JObj [("web", JObj [("results", JArr [JObj first_hit; JObj second_hit])])])).

(** A body whose [web] entry is null. *)
Definition null_web : json := JObj [("web", JNull)].

Definition null_web_answer : Response :=
  mkResponse 200 "OK" search_url (Encodes null_web).

(** A results list with an item that is not an object. *)
Definition stray_items : list json := [JObj first_hit; JStr "stray"].

Definition stray_answer : Response :=
  mkResponse 200 "OK" search_url
    (Encodes (JObj [("web", JObj [("results", JArr stray_items)])])).

Definition empty_query_call : ToolCall :=
  mkToolCall "call_5" "search_brave" (Encodes (JObj [("query", JStr "")])).

(** The model service is down. *)
Definition mute : Env :=
  mkEnv (fun _ => None) since_2_27
        (fun _ _ => Exc (ConnectionError "connection refused"))
        (fun _ _ => Exc (APIError "service unavailable")).

(** The model answers at once, without any text. *)
Definition silent : Env :=
  mkEnv (fun _ => None) since_2_27
        (fun _ _ => Exc (ConnectionError "connection refused"))
        (fun _ _ => Ret (mkReply None None)).

End ExtraScenario.

(* ================================================================== *)
(** * Properties *)

(* ------------------------------------------------------------------ *)
(** ** The content tool *)

Lemma request_answer env c w :
  request env c w =
    match transport env (List.length (net w)) c with
    | Ret r => Returns r (sent c w)
    | Exc e => Raises e (sent c w)
    end.
Proof. reflexivity. Qed.

Lemma Response_json_not_json env response msg :
  body response = NotJSON msg ->
  exists e, (forall w, Response_json env response w = Raises e w)
            /\ is_ValueError e = true /\ str_exn e = msg.
Proof.
  intros Hb. unfold Response_json. rewrite Hb.
  destruct (release env); eexists; (split; [intros w; reflexivity | split; reflexivity]).
Qed.

(** What [get_url_content] does once the response is known. *)
Lemma get_url_content_unfold env url w response :
  transport env (List.length (net w)) (convert_request url) = Ret response ->
  get_url_content env url w =
    if negb (status_code response =? 200) then
      Returns (error_record ("Error: " ++ str_int (status_code response)))
              (sent (convert_request url) w)
    else
      try_except
        (content <- Response_json env response ;; lift (URLContent_kwargs content))
        is_ValueError
        (fun e => ret (error_record ("Error parsing response: " ++ str_exn e)))
        (sent (convert_request url) w).
Proof.
  intros Ht. unfold get_url_content, bind at 1.
  rewrite request_answer. fold (convert_request url). rewrite Ht.
  destruct (negb (status_code response =? 200)); reflexivity.
Qed.

(** C6. Whenever the response to the single POST has a status other than
    200, [get_url_content] returns the record with empty title and text and
    error ["Error: <status code>"], and the network log has grown by exactly
    that one request: there is no second attempt. *)
Theorem get_url_content_bad_status env url w response :
  transport env (List.length (net w)) (convert_request url) = Ret response ->
  status_code response <> 200 ->
  get_url_content env url w =
    Returns (URLContent.mk (JStr "") (JStr "")
               (JStr ("Error: " ++ str_int (status_code response))))
            (mkWorld (net w ++ [convert_request url]) (stdout w) (slept w) (asked w)).
Proof.
  intros Ht Hs. rewrite (get_url_content_unfold env url w Ht).
  apply Z.eqb_neq in Hs. rewrite Hs. reflexivity.
Qed.

(** Whenever the response has status 200 and its body is no JSON document,
    [get_url_content] returns the record with empty title and text and
    error ["Error parsing response: "] followed by the decoder's message,
    after exactly one request. *)
Lemma get_url_content_undecodable env url w response msg :
  transport env (List.length (net w)) (convert_request url) = Ret response ->
  status_code response = 200 ->
  body response = NotJSON msg ->
  get_url_content env url w =
    Returns (URLContent.mk (JStr "") (JStr "")
               (JStr ("Error parsing response: " ++ msg)))
            (mkWorld (net w ++ [convert_request url]) (stdout w) (slept w) (asked w)).
Proof.
  intros Ht Hs Hb. rewrite (get_url_content_unfold env url w Ht).
  rewrite Hs. simpl negb. cbv iota.
  destruct (Response_json_not_json env response Hb) as (e & Hr & Hv & Hm).
  unfold try_except, bind. rewrite Hr, Hv, Hm. reflexivity.
Qed.

(** C7 (amended). Every record [get_url_content] returns comes from one of
    two paths.  On the error paths (status other than 200, or a body whose
    decoding raises a [ValueError]: no JSON document, or an integer of too
    many digits) it is an error record: empty title and text, error a
    string, and the invariant holds.  On the success path the response had
    status 200 and an object body, and the record carries the body's
    [title], [text] and [error] entries as they are ([error] is [None] when
    the body has none); there the invariant holds whenever that entry is
    absent or null. *)
Theorem get_url_content_record env url w r w' :
  get_url_content env url w = Returns r w' ->
  exists response,
    transport env (List.length (net w)) (convert_request url) = Ret response
    /\ (((status_code response <> 200
          \/ (exists msg, body response = NotJSON msg)
          \/ (exists msg, body response = Refused (TooManyDigits msg)))
         /\ (exists msg, r = error_record msg)
         /\ one_side_meaningful r)
        \/ (status_code response = 200
            /\ exists fields title text,
                 body response = Encodes (JObj fields)
                 /\ lookup "title" fields = Some title
                 /\ lookup "text" fields = Some text
                 /\ r = URLContent.mk title text (get fields "error" JNull)
                 /\ (get fields "error" JNull = JNull -> one_side_meaningful r))).
Proof.
  intros Hrun.
  assert (Herr : forall msg, one_side_meaningful (error_record msg)).
  { intros msg; split; simpl; intros H; auto. destruct H; congruence. }
  destruct (transport env (List.length (net w)) (convert_request url))
    as [response | e] eqn:Ht.
  - exists response; split; [reflexivity |].
    rewrite (get_url_content_unfold env url w Ht) in Hrun.
    destruct (Z.eqb_spec (status_code response) 200) as [Hs | Hs]; simpl in Hrun.
    + unfold try_except, bind, Response_json in Hrun.
      destruct (body response) as [msg | [msg | msg] | v] eqn:Hb.
      * left. split; [right; left; eauto |].
        destruct (release env); simpl in Hrun; inversion Hrun; subst; eauto.
      * simpl in Hrun. discriminate.
      * left. split; [right; right; eauto |].
        simpl in Hrun; inversion Hrun; subst; eauto.
      * right. split; [exact Hs |]. unfold ret in Hrun.
        destruct v as [ | | | | | | fields]; simpl in Hrun; try discriminate.
        destruct (forallb _ fields); simpl in Hrun; try discriminate.
        destruct (lookup "title" fields) as [title |] eqn:Hti; simpl in Hrun;
          try discriminate.
        destruct (lookup "text" fields) as [text |] eqn:Hte; simpl in Hrun;
          try discriminate.
        inversion Hrun; subst.
        exists fields, title, text. unfold mkContent.
        repeat split; auto; simpl in *; congruence.
    + inversion Hrun; subst. left. split; [left; exact Hs | eauto].
  - unfold get_url_content, bind in Hrun. rewrite request_answer in Hrun.
    fold (convert_request url) in Hrun. rewrite Ht in Hrun. discriminate.
Qed.

Lemma get_url_content_bad_status_witness :
  get_url_content (Scenario.answering since_2_27 Scenario.not_found) "http://a" world0 =
    Returns (URLContent.mk (JStr "") (JStr "") (JStr "Error: 404"))
            (mkWorld [convert_request "http://a"] [] [] []).
Proof.
  apply (@get_url_content_bad_status
           (Scenario.answering since_2_27 Scenario.not_found) "http://a" world0
           Scenario.not_found).
  - reflexivity.
  - simpl. lia.
Defined.

Lemma get_url_content_undecodable_witness :
  get_url_content (Scenario.answering before_2_27 Scenario.garbled) "http://a" world0 =
    Returns (URLContent.mk (JStr "") (JStr "")
               (JStr "Error parsing response: Expecting value: line 1 column 1 (char 0)"))
            (mkWorld [convert_request "http://a"] [] [] []).
Proof.
  apply (@get_url_content_undecodable
           (Scenario.answering before_2_27 Scenario.garbled) "http://a" world0
           Scenario.garbled); reflexivity.
Defined.

(** C5. Two responses with status 200 whose body cannot be parsed as the
    expected structure and for which [get_url_content] raises instead of
    returning an error record.  The body [{}] is JSON without [title] and
    [text]: the dataclass constructor, called inside the [try], raises
    [TypeError], and the handler catches [ValueError] only.  A body nested
    too deep makes the decoder raise [RecursionError], which is no
    [ValueError] either. *)
Theorem get_url_content_wrong_shape_raises :
  status_code Scenario.empty_object = 200
  /\ URLContent_kwargs (JObj []) = Exc (TypeError "missing required positional arguments")
  /\ is_ValueError (TypeError "missing required positional arguments") = false
  /\ get_url_content (Scenario.answering since_2_27 Scenario.empty_object) "http://a" world0 =
       Raises (TypeError "missing required positional arguments")
              (mkWorld [convert_request "http://a"] [] [] [])
  /\ status_code Scenario.too_deep = 200
  /\ get_url_content (Scenario.answering since_2_27 Scenario.too_deep) "http://a" world0 =
       Raises (RecursionError "maximum recursion depth exceeded while decoding a JSON array")
              (mkWorld [convert_request "http://a"] [] [] []).
Proof. repeat split. Qed.

Lemma get_url_content_record_witness :
  exists response,
    Ret Scenario.not_found = Ret response
    /\ (((status_code response <> 200
          \/ (exists msg, body response = NotJSON msg)
          \/ (exists msg, body response = Refused (TooManyDigits msg)))
         /\ (exists msg, error_record "Error: 404" = error_record msg)
         /\ one_side_meaningful (error_record "Error: 404"))
        \/ (status_code response = 200
            /\ exists fields title text,
                 body response = Encodes (JObj fields)
                 /\ lookup "title" fields = Some title
                 /\ lookup "text" fields = Some text
                 /\ error_record "Error: 404"
                    = URLContent.mk title text (get fields "error" JNull)
                 /\ (get fields "error" JNull = JNull
                     -> one_side_meaningful (error_record "Error: 404")))).
Proof.
  apply (@get_url_content_record
           (Scenario.answering since_2_27 Scenario.not_found) "http://a" world0
           (error_record "Error: 404") (mkWorld [convert_request "http://a"] [] [] [])).
  reflexivity.
Defined.

(** A returned record with error set and title and text both carrying
    content: the body had all three entries. *)
(** A status-200 body that is one integer of too many digits: the
    decoder's [ValueError] is caught and an error record is returned. *)
Example get_url_content_many_digits :
  get_url_content (Scenario.answering since_2_27 Scenario.many_digits) "http://a" world0 =
    Returns (error_record
               "Error parsing response: Exceeds the limit (4300 digits) for integer string conversion")
            (mkWorld [convert_request "http://a"] [] [] []).
Proof. reflexivity. Qed.

Lemma get_url_content_three_fields :
  get_url_content (Scenario.answering since_2_27 Scenario.page_with_error) "http://a" world0 =
    Returns (URLContent.mk (JStr "T") (JStr "X") (JStr "E"))
            (mkWorld [convert_request "http://a"] [] [] [])
  /\ ~ one_side_meaningful (URLContent.mk (JStr "T") (JStr "X") (JStr "E")).
Proof.
  split; [reflexivity |].
  intros [H _]. simpl in H. destruct H as [H _]; [discriminate | discriminate].
Qed.

(* ------------------------------------------------------------------ *)
(** ** The search tool: what one attempt does *)

Lemma raise_for_status_spec r w :
  raise_for_status r w =
    match http_error r with
    | Some e => Raises e w
    | None => Returns tt w
    end.
Proof.
  unfold raise_for_status, http_error.
  destruct ((400 <=? status_code r) && (status_code r <? 500)); [reflexivity |].
  destruct ((500 <=? status_code r) && (status_code r <? 600)); reflexivity.
Qed.

Lemma attempt_spec env h p w :
  attempt env h p w =
    match attempt_result env (transport env (List.length (net w)) (GET search_url h p)) with
    | inl e => Raises e (sent (GET search_url h p) w)
    | inr v => Returns (Break v) (printed "Got results" (sent (GET search_url h p) w))
    end.
Proof.
  unfold attempt, bind at 1. rewrite request_answer.
  destruct (transport env (List.length (net w)) (GET search_url h p)) as [r | e];
    [| reflexivity].
  unfold bind at 1. rewrite raise_for_status_spec. unfold attempt_result.
  destruct (http_error r); [reflexivity |].
  unfold bind, Response_json, decode_error.
  destruct (body r); [destruct (release env) | |]; reflexivity.
Qed.

Lemma transport_failure_fails env o :
  transport_failure o = true -> attempt_fails env o = true.
Proof.
  unfold transport_failure, attempt_fails, attempt_result, http_error.
  destruct o as [r | e]; [| auto].
  intros H.
  destruct ((400 <=? status_code r) && (status_code r <? 500)) eqn:H4; [reflexivity |].
  destruct ((500 <=? status_code r) && (status_code r <? 600)) eqn:H5; [reflexivity |].
  exfalso.
  apply andb_true_iff in H. destruct H as [Ha Hb].
  apply Z.leb_le in Ha. apply Z.ltb_lt in Hb.
  apply andb_false_iff in H4. apply andb_false_iff in H5.
  destruct H4 as [H4 | H4]; [apply Z.leb_gt in H4; lia | apply Z.ltb_ge in H4].
  destruct H5 as [H5 | H5]; [apply Z.leb_gt in H5; lia | apply Z.ltb_ge in H5; lia].
Qed.

Section Attempts.
Variable env : Env.
Variable h : list (string * string).
Variable p : list (string * json).
Let c : NetCall := GET search_url h p.

Lemma failed_attempt fuel retries w e :
  retries < max_retries ->
  attempt_result env (transport env (List.length (net w)) c) = inl e ->
  is_RequestException e = true ->
  attempts env (S fuel) h p retries w =
    if retries + 1 <? max_retries then
      attempts env fuel h p (retries + 1)
        (paused (backoff_factor ^ (retries + 1)) (after_failure c e w))
    else Returns (Return []) (after_failure c e w).
Proof.
  intros Hlt Hres Hre. simpl attempts.
  apply Z.ltb_lt in Hlt. rewrite Hlt.
  unfold try_except. rewrite attempt_spec. fold c. rewrite Hres, Hre.
  unfold bind at 1. simpl.
  destruct (retries + 1 <? max_retries); reflexivity.
Qed.

Lemma good_attempt fuel retries w v :
  retries < max_retries ->
  attempt_result env (transport env (List.length (net w)) c) = inr v ->
  attempts env (S fuel) h p retries w =
    Returns (Break v) (printed "Got results" (sent c w)).
Proof.
  intros Hlt Hres. simpl attempts.
  apply Z.ltb_lt in Hlt. rewrite Hlt.
  unfold try_except. rewrite attempt_spec. fold c. rewrite Hres. reflexivity.
Qed.

Lemma fatal_attempt fuel retries w e :
  retries < max_retries ->
  attempt_result env (transport env (List.length (net w)) c) = inl e ->
  is_RequestException e = false ->
  attempts env (S fuel) h p retries w = Raises e (sent c w).
Proof.
  intros Hlt Hres Hre. simpl attempts.
  apply Z.ltb_lt in Hlt. rewrite Hlt.
  unfold try_except. rewrite attempt_spec. fold c. rewrite Hres, Hre. reflexivity.
Qed.

(** [k] failed attempts in a row, with room for one more pass: the loop is
    back at its head with the counter advanced by [k], [k] more requests in
    the log and the backoff sleeps taken. *)
Lemma attempts_after_failures k :
  forall fuel retries w,
    retries + Z.of_nat k < max_retries ->
    (forall j, (j < k)%nat ->
       attempt_fails env (transport env (List.length (net w) + j)%nat c) = true) ->
    exists w',
      attempts env (k + fuel)%nat h p retries w
        = attempts env fuel h p (retries + Z.of_nat k) w'
      /\ net w' = (net w ++ repeat c k)%list
      /\ slept w' = (slept w ++ delays retries k)%list
      /\ asked w' = asked w.
Proof.
  induction k as [| k IH]; intros fuel retries w Hlt Hfail.
  - exists w. simpl. rewrite Z.add_0_r, !app_nil_r. auto.
  - assert (H0 : attempt_fails env (transport env (List.length (net w)) c) = true).
    { rewrite <- (Nat.add_0_r (List.length (net w))). apply Hfail. lia. }
    unfold attempt_fails in H0.
    destruct (attempt_result env (transport env (List.length (net w)) c))
      as [e | v] eqn:Hres; [| discriminate].
    change (S k + fuel)%nat with (S (k + fuel)).
    rewrite (@failed_attempt (k + fuel)%nat retries w e); [| lia | exact Hres | exact H0].
    assert (Hnext : (retries + 1 <? max_retries) = true) by (apply Z.ltb_lt; lia).
    rewrite Hnext.
    set (w1 := paused (backoff_factor ^ (retries + 1)) (after_failure c e w)).
    destruct (IH fuel (retries + 1) w1) as (w' & Hrun & Hnet & Hslept & Hasked).
    + lia.
    + intros j Hj.
      replace (List.length (net w1) + j)%nat with (List.length (net w) + S j)%nat.
      * apply Hfail. lia.
      * unfold w1; simpl. rewrite length_app. simpl. lia.
    + exists w'. split; [| split; [| split]].
      * rewrite Hrun. f_equal. lia.
      * rewrite Hnet. unfold w1; simpl. rewrite <- app_assoc. reflexivity.
      * rewrite Hslept. unfold w1; simpl. rewrite <- app_assoc. reflexivity.
      * rewrite Hasked. reflexivity.
Qed.

End Attempts.

(* ------------------------------------------------------------------ *)
(** ** The search tool: guards, retries, decode failures *)

Lemma search_brave_guarded env query count w :
  truthy query = true ->
  api_key env <> "" ->
  search_brave env query count w = search_main env query count w.
Proof.
  intros Hq Hk. unfold search_brave. rewrite Hq.
  fold (api_key env). unfold truthy.
  destruct (String.eqb_spec (api_key env) "") as [E | _]; [contradiction |].
  reflexivity.
Qed.

Section Search.
Variable env : Env.
Variable query : json.
Variable count : Z.
Variable w : World.
Hypothesis query_given : truthy query = true.
Hypothesis key_given : api_key env <> "".

Let c : NetCall := search_request env query count.
Let n : nat := List.length (net w).

(** Attempt number [k] (counting from 0) is reached after [k] failures and
    succeeds: the decoded body is parsed, [k + 1] requests were sent and
    the [k] backoff sleeps taken. *)
Lemma search_brave_success_at k v :
  (k < 3)%nat ->
  (forall j, (j < k)%nat -> attempt_fails env (transport env (n + j)%nat c) = true) ->
  attempt_result env (transport env (n + k)%nat c) = inr v ->
  exists w',
    search_brave env query count w = lift (parse_results v) w'
    /\ net w' = (net w ++ repeat c (S k))%list
    /\ slept w' = (slept w ++ delays 0 k)%list.
Proof.
  intros Hk Hfail Hres.
  rewrite search_brave_guarded by assumption. unfold search_main, bind.
  destruct (@attempts_after_failures env (search_headers env) (search_params query count)
              k (4 - k)%nat 0 w) as (w1 & Hrun & Hnet & Hslept & _).
  { unfold max_retries. lia. }
  { exact Hfail. }
  replace search_fuel with (k + (4 - k))%nat by (unfold search_fuel; lia). rewrite Hrun.
  destruct (4 - k)%nat as [| fuel] eqn:Hfuel; [lia |].
  rewrite (@good_attempt env _ _ fuel (0 + Z.of_nat k) w1 v).
  - exists (printed "Got results" (sent c w1)). split; [reflexivity |].
    simpl. rewrite Hnet, Hslept. split; [| reflexivity].
    rewrite <- app_assoc. f_equal. symmetry. apply (repeat_cons k c).
  - unfold max_retries. lia.
  - rewrite Hnet, length_app, repeat_length. exact Hres.
Qed.

(** Attempt number [k] raises an exception the handler does not catch: it
    leaves [search_brave]. *)
Lemma search_brave_fatal_at k e :
  (k < 3)%nat ->
  (forall j, (j < k)%nat -> attempt_fails env (transport env (n + j)%nat c) = true) ->
  attempt_result env (transport env (n + k)%nat c) = inl e ->
  is_RequestException e = false ->
  exists w',
    search_brave env query count w = Raises e w'
    /\ net w' = (net w ++ repeat c (S k))%list
    /\ slept w' = (slept w ++ delays 0 k)%list.
Proof.
  intros Hk Hfail Hres Hre.
  rewrite search_brave_guarded by assumption. unfold search_main, bind.
  destruct (@attempts_after_failures env (search_headers env) (search_params query count)
              k (4 - k)%nat 0 w) as (w1 & Hrun & Hnet & Hslept & _).
  { unfold max_retries. lia. }
  { exact Hfail. }
  replace search_fuel with (k + (4 - k))%nat by (unfold search_fuel; lia). rewrite Hrun.
  destruct (4 - k)%nat as [| fuel] eqn:Hfuel; [lia |].
  rewrite (@fatal_attempt env _ _ fuel (0 + Z.of_nat k) w1 e).
  - exists (sent c w1). split; [reflexivity |].
    simpl. rewrite Hnet, Hslept. split; [| reflexivity].
    rewrite <- app_assoc. f_equal. symmetry. apply (repeat_cons k c).
  - unfold max_retries. lia.
  - rewrite Hnet, length_app, repeat_length. exact Hres.
  - exact Hre.
Qed.

(** Three failed attempts: the empty list, three requests, sleeps of 2 and
    4 seconds, and nothing raised. *)
Lemma search_brave_gives_up :
  (forall j, (j < 3)%nat -> attempt_fails env (transport env (n + j)%nat c) = true) ->
  exists w',
    search_brave env query count w = Returns [] w'
    /\ net w' = (net w ++ [c; c; c])%list
    /\ slept w' = (slept w ++ [2; 4])%list.
Proof.
  intros Hfail.
  rewrite search_brave_guarded by assumption. unfold search_main, bind.
  destruct (@attempts_after_failures env (search_headers env) (search_params query count)
              2 2%nat 0 w) as (w1 & Hrun & Hnet & Hslept & _).
  { unfold max_retries. lia. }
  { intros j Hj. apply Hfail. lia. }
  change search_fuel with (2 + 2)%nat. rewrite Hrun.
  assert (H2 : attempt_fails env (transport env (List.length (net w1)) c) = true).
  { rewrite Hnet, length_app, repeat_length. apply Hfail. lia. }
  unfold attempt_fails in H2.
  destruct (attempt_result env (transport env (List.length (net w1)) c))
    as [e | v] eqn:Hres; [| discriminate].
  rewrite (@failed_attempt env _ _ 1%nat (0 + Z.of_nat 2) w1 e);
    [| unfold max_retries; lia | exact Hres | exact H2].
  simpl. exists (after_failure c e w1). split; [reflexivity |].
  simpl. rewrite Hnet, Hslept, <- !app_assoc. split; reflexivity.
Qed.

End Search.

(** C4 (amended). With the empty string as query [search_brave] returns
    the empty list and leaves the world as it was: no request, nothing
    printed, nothing raised.  With the credential variable absent or empty
    it returns the empty list without any request, whatever the query; when
    the query is not empty it gets as far as the credential check and
    prints the one line ["Error: Missing Brave Search API key."]; when the
    query is empty it returns before the credential is looked at and prints
    nothing. *)
Theorem search_brave_guards env query count w :
  (query = JStr "" -> search_brave env query count w = Returns [] w)
  /\ (environ env "BRAVE_SEARCH_AI_API_KEY" = None
      \/ environ env "BRAVE_SEARCH_AI_API_KEY" = Some "" ->
      exists w',
        search_brave env query count w = Returns [] w'
        /\ net w' = net w
        /\ slept w' = slept w
        /\ (truthy query = true ->
            stdout w' = (stdout w ++ ["Error: Missing Brave Search API key."])%list)
        /\ (truthy query = false -> w' = w)).
Proof.
  split.
  - intros ->. reflexivity.
  - intros Hkey.
    assert (Hk : environ_get env "BRAVE_SEARCH_AI_API_KEY" "" = "").
    { unfold environ_get. destruct Hkey as [-> | ->]; reflexivity. }
    unfold search_brave. rewrite Hk.
    destruct (truthy query) eqn:Hq; simpl.
    + eexists. split; [reflexivity |]. simpl. repeat split; auto. discriminate.
    + exists w. repeat split; auto. discriminate.
Qed.

(** A call with the credential missing that logs no error line: the query
    is empty, so the call returns at the first guard. *)
Lemma search_brave_empty_query_logs_nothing :
  environ Scenario.offline "BRAVE_SEARCH_AI_API_KEY" = None
  /\ search_brave Scenario.offline (JStr "") 10 world0 = Returns [] world0
  /\ stdout world0 = [].
Proof. repeat split. Qed.

Lemma search_brave_guards_witness :
  search_brave Scenario.offline (JStr "") 10 world0 = Returns [] world0
  /\ exists w',
       search_brave Scenario.offline (JStr "rocq") 10 world0 = Returns [] w'
       /\ net w' = []
       /\ slept w' = []
       /\ (truthy (JStr "rocq") = true ->
           stdout w' = ["Error: Missing Brave Search API key."])
       /\ (truthy (JStr "rocq") = false -> w' = world0).
Proof.
  split.
  - apply (proj1 (search_brave_guards Scenario.offline (JStr "") 10 world0)). reflexivity.
  - apply (proj2 (search_brave_guards Scenario.offline (JStr "rocq") 10 world0)).
    left. reflexivity.
Defined.

(** C3 (amended). With a non-empty query and a credential, if the first
    attempt fails at the transport (the request raises a
    [RequestException], or the status is in 400..599, the codes
    [raise_for_status] raises on), the tool sleeps 2 seconds and tries again;
    after a second such failure it sleeps 4 seconds and tries a third time;
    a success at the second or third attempt returns the parsed body; after
    a third failure it returns the empty list, having sent exactly three
    requests and raised nothing. *)
Theorem search_brave_retries env query count w :
  truthy query = true ->
  api_key env <> "" ->
  transport_failure
    (transport env (List.length (net w)) (search_request env query count)) = true ->
  (forall v,
     attempt_result env
       (transport env (List.length (net w) + 1)%nat (search_request env query count)) = inr v ->
     exists w',
       search_brave env query count w = lift (parse_results v) w'
       /\ net w' = (net w ++ [search_request env query count;
                              search_request env query count])%list
       /\ slept w' = (slept w ++ [2])%list)
  /\ (transport_failure
        (transport env (List.length (net w) + 1)%nat (search_request env query count)) = true ->
      (forall v,
         attempt_result env
           (transport env (List.length (net w) + 2)%nat (search_request env query count))
           = inr v ->
         exists w',
           search_brave env query count w = lift (parse_results v) w'
           /\ net w' = (net w ++ [search_request env query count;
                                  search_request env query count;
                                  search_request env query count])%list
           /\ slept w' = (slept w ++ [2; 4])%list)
      /\ (transport_failure
            (transport env (List.length (net w) + 2)%nat (search_request env query count))
            = true ->
          exists w',
            search_brave env query count w = Returns [] w'
            /\ net w' = (net w ++ [search_request env query count;
                                   search_request env query count;
                                   search_request env query count])%list
            /\ slept w' = (slept w ++ [2; 4])%list)).
Proof.
  intros Hq Hk H0.
  assert (F0 : attempt_fails env
                 (transport env (List.length (net w) + 0)%nat
                    (search_request env query count)) = true).
  { rewrite Nat.add_0_r. apply transport_failure_fails, H0. }
  split; [| intros H1; split].
  - intros v Hv.
    apply (@search_brave_success_at env query count w Hq Hk 1%nat v); [lia | | exact Hv].
    intros j Hj. replace j with 0%nat by lia. exact F0.
  - intros v Hv.
    apply (@search_brave_success_at env query count w Hq Hk 2%nat v); [lia | | exact Hv].
    intros j Hj. destruct j as [| [| j]]; [exact F0 | | lia].
    apply transport_failure_fails, H1.
  - intros H2.
    apply (@search_brave_gives_up env query count w Hq Hk).
    intros j Hj. destruct j as [| [| [| j]]]; [exact F0 | | | lia];
      apply transport_failure_fails; assumption.
Qed.

Lemma search_brave_retries_witness :
  exists w',
    search_brave SearchScenario.unreachable (JStr "rocq") 10 world0 = Returns [] w'
    /\ net w' = [search_request SearchScenario.unreachable (JStr "rocq") 10;
                 search_request SearchScenario.unreachable (JStr "rocq") 10;
                 search_request SearchScenario.unreachable (JStr "rocq") 10]
    /\ slept w' = [2; 4].
Proof.
  refine (proj2 (proj2 (@search_brave_retries SearchScenario.unreachable (JStr "rocq") 10
                          world0 eq_refl _ eq_refl) eq_refl) eq_refl).
  unfold api_key, environ_get. simpl. discriminate.
Defined.

(** A status outside 200..299 that [raise_for_status] lets through: the
    first attempt is taken as a success, nothing is slept, nothing retried,
    and the body's results are returned. *)
Lemma search_brave_status_300_not_retried :
  ~ (200 <= status_code SearchScenario.multiple_choices < 300)
  /\ search_brave (Scenario.answering since_2_27 SearchScenario.multiple_choices)
       (JStr "rocq") 10 world0
     = Returns [SearchResult.mk (JStr "t") (JStr "") (JStr "") (JArr [])]
         (mkWorld [search_request (Scenario.answering since_2_27
                                     SearchScenario.multiple_choices) (JStr "rocq") 10]
                  ["Got results"] [] []).
Proof.
  split; [simpl; lia | reflexivity].
Qed.

(** C8 (amended). Let attempt number [k] (0, 1 or 2, the earlier ones having
    failed) get a response with a 2xx status whose body does not decode.
    When the body is no JSON document the decoder raises its
    [JSONDecodeError]: with a [requests] release before 2.27 that error is
    not a [RequestException] and leaves [search_brave] uncaught; since 2.27
    [Response.json] raises a [RequestException] instead, the handler
    catches it and the attempt counts as failed, so three failed attempts
    end in the empty list.  When the decoder gives up on the body with
    another exception ([RecursionError] for a body nested too deep, a plain
    [ValueError] for an integer of too many digits), no release wraps it:
    it leaves [search_brave] uncaught at that attempt. *)
Theorem search_brave_undecodable env query count w k response :
  truthy query = true ->
  api_key env <> "" ->
  (k < 3)%nat ->
  (forall j, (j < k)%nat ->
     attempt_fails env
       (transport env (List.length (net w) + j)%nat (search_request env query count)) = true) ->
  transport env (List.length (net w) + k)%nat (search_request env query count) = Ret response ->
  200 <= status_code response < 300 ->
  (forall msg,
     body response = NotJSON msg ->
     (release env = before_2_27 ->
        exists w',
          search_brave env query count w = Raises (JSONDecodeError msg) w'
          /\ net w' = (net w ++ repeat (search_request env query count) (S k))%list)
     /\ (release env = since_2_27 ->
         attempt_fails env
           (transport env (List.length (net w) + k)%nat (search_request env query count))
         = true
         /\ ((forall j, (j < 3)%nat ->
                attempt_fails env
                  (transport env (List.length (net w) + j)%nat
                     (search_request env query count))
                = true) ->
             exists w',
               search_brave env query count w = Returns [] w'
               /\ net w' = (net w ++ [search_request env query count;
                                      search_request env query count;
                                      search_request env query count])%list
               /\ slept w' = (slept w ++ [2; 4])%list)))
  /\ (forall r,
        body response = Refused r ->
        is_RequestException (refusal_exn r) = false
        /\ exists w',
             search_brave env query count w = Raises (refusal_exn r) w'
             /\ net w' = (net w ++ repeat (search_request env query count) (S k))%list).
Proof.
  intros Hq Hk Hlt Hfail Ht Hs.
  assert (Hok : http_error response = None).
  { unfold http_error.
    replace ((400 <=? status_code response) && (status_code response <? 500)) with false
      by (symmetry; apply andb_false_iff; left; apply Z.leb_gt; lia).
    replace ((500 <=? status_code response) && (status_code response <? 600)) with false
      by (symmetry; apply andb_false_iff; left; apply Z.leb_gt; lia).
    reflexivity. }
  split.
  - intros msg Hb.
    assert (Hres : attempt_result env
                     (transport env (List.length (net w) + k)%nat
                        (search_request env query count)) = inl (decode_error env msg)).
    { rewrite Ht. unfold attempt_result. rewrite Hok, Hb. reflexivity. }
    split; intros Hrel.
    + destruct (@search_brave_fatal_at env query count w Hq Hk k (decode_error env msg)
                  Hlt Hfail Hres) as (w' & Hrun & Hnet & _).
      { unfold decode_error. rewrite Hrel. reflexivity. }
      exists w'. split; [| exact Hnet].
      rewrite Hrun. unfold decode_error. rewrite Hrel. reflexivity.
    + split.
      * unfold attempt_fails. rewrite Hres. unfold decode_error. rewrite Hrel. reflexivity.
      * apply (@search_brave_gives_up env query count w Hq Hk).
  - intros r Hb.
    assert (Hre : is_RequestException (refusal_exn r) = false) by (destruct r; reflexivity).
    split; [exact Hre |].
    assert (Hres : attempt_result env
                     (transport env (List.length (net w) + k)%nat
                        (search_request env query count)) = inl (refusal_exn r)).
    { rewrite Ht. unfold attempt_result. rewrite Hok, Hb. reflexivity. }
    destruct (@search_brave_fatal_at env query count w Hq Hk k (refusal_exn r)
                Hlt Hfail Hres Hre) as (w' & Hrun & Hnet & _).
    exists w'. split; [exact Hrun | exact Hnet].
Qed.

Lemma search_brave_undecodable_witness :
  exists w',
    search_brave (Scenario.answering before_2_27 SearchScenario.ok_garbled) (JStr "rocq") 10
      world0
    = Raises (JSONDecodeError "Expecting value: line 1 column 1 (char 0)") w'
    /\ net w' = [search_request (Scenario.answering before_2_27 SearchScenario.ok_garbled)
                   (JStr "rocq") 10].
Proof.
  refine (proj1 (proj1 (@search_brave_undecodable
                          (Scenario.answering before_2_27 SearchScenario.ok_garbled)
                          (JStr "rocq") 10 world0 0%nat SearchScenario.ok_garbled
                          eq_refl _ _ _ eq_refl _)
                   "Expecting value: line 1 column 1 (char 0)" eq_refl) eq_refl).
  - unfold api_key, environ_get. simpl. discriminate.
  - lia.
  - intros j Hj. lia.
  - simpl. lia.
Defined.

(** An integer of too many digits in a 2xx body: the decoder's plain
    [ValueError] leaves [search_brave] at the first attempt, with a current
    [requests] too. *)
Example search_brave_many_digits :
  search_brave (Scenario.answering since_2_27 SearchScenario.ok_many_digits) (JStr "rocq") 10
    world0
  = Raises (ValueError "Exceeds the limit (4300 digits) for integer string conversion")
      (mkWorld
         [search_request (Scenario.answering since_2_27 SearchScenario.ok_many_digits)
            (JStr "rocq") 10]
         [] [] []).
Proof. reflexivity. Qed.

(** With a current [requests] every attempt answered by a 2xx response
    whose body is no JSON document is caught and retried; the call ends in
    the empty list and raises nothing. *)
Lemma search_brave_undecodable_is_swallowed :
  status_code SearchScenario.ok_garbled = 200
  /\ search_brave (Scenario.answering since_2_27 SearchScenario.ok_garbled) (JStr "rocq") 10
       world0
     = Returns []
         (mkWorld
            (repeat (search_request (Scenario.answering since_2_27 SearchScenario.ok_garbled)
                       (JStr "rocq") 10) 3)
            (repeat "HTTP Request failed: Expecting value: line 1 column 1 (char 0), retrying..."
                    3)
            [2; 4] []).
Proof.
  split; reflexivity.
Qed.

(* ------------------------------------------------------------------ *)
(** ** The orchestration loop *)

Lemma ask_llm_spec env h tools w :
  ask_llm env h tools w =
    match completion env h tools with
    | Ret m => Returns m (consulted h w)
    | Exc e => Raises e (consulted h w)
    end.
Proof. reflexivity. Qed.

Lemma turn_final env h w m :
  completion env h brave_search_tools = Ret m ->
  has_tool_calls m = false ->
  turn env h w = Returns (inr (content m)) (consulted h w).
Proof.
  intros Hc Hn. unfold turn, bind at 1. rewrite ask_llm_spec, Hc, Hn. reflexivity.
Qed.

Lemma turn_tools env h w m :
  completion env h brave_search_tools = Ret m ->
  has_tool_calls m = true ->
  turn env h w =
    (history <- run_tool_calls env (pending m) (h ++ [Assistant m])%list ;;
     ret (inl history)) (echoed m (consulted h w)).
Proof.
  intros Hc Hy. unfold turn, bind at 1. rewrite ask_llm_spec, Hc, Hy.
  unfold bind at 1, echoed.
  destruct (content m) as [[| c s] |]; reflexivity.
Qed.

Lemma conversation_step env fuel h w :
  conversation env (S fuel) h w =
    match turn env h w with
    | Returns (inl h') w' => conversation env fuel h' w'
    | Returns (inr answer) w' => Returns answer w'
    | Raises e w' => Raises e w'
    | OutOfFuel => OutOfFuel
    end.
Proof.
  simpl. unfold bind. destruct (turn env h w) as [[h' | a] w' | e w' |]; reflexivity.
Qed.

(** C1. Whenever the model's reply to the current conversation carries no
    tool-invocation-requests, the loop stops at that turn and returns the
    reply's text, for any positive fuel.  In particular, when this is the
    first reply, [process_user_query] returns its text, and the one
    conversation the model was shown holds exactly two messages: the
    system prompt and the user message with the raw query. *)
Theorem process_user_query_final_answer env fuel history w m :
  completion env history brave_search_tools = Ret m ->
  has_tool_calls m = false ->
  conversation env (S fuel) history w = Returns (content m) (consulted history w)
  /\ (forall query,
        history = initial_history query ->
        process_user_query env (S fuel) query w
          = Returns (content m)
              (mkWorld (net w) (stdout w) (slept w)
                 (asked w ++ [[RoleContent "system" first_llm_system_prompt;
                               RoleContent "user" query]]))
        /\ List.length history = 2%nat).
Proof.
  intros Hc Hn.
  assert (Hrun : conversation env (S fuel) history w
                 = Returns (content m) (consulted history w)).
  { rewrite conversation_step, (turn_final env history w Hc Hn). reflexivity. }
  split; [exact Hrun |].
  intros query ->. split; [| reflexivity].
  unfold process_user_query. rewrite Hrun. reflexivity.
Qed.

Lemma process_user_query_final_answer_witness :
  process_user_query LoopScenario.forty_two 1 "What is six times seven?" world0
    = Returns (Some "42")
        (mkWorld [] [] []
           [[RoleContent "system" first_llm_system_prompt;
             RoleContent "user" "What is six times seven?"]])
  /\ List.length (initial_history "What is six times seven?") = 2%nat.
Proof.
  exact (proj2 (@process_user_query_final_answer LoopScenario.forty_two 0
                  (initial_history "What is six times seven?") world0
                  (mkReply (Some "42") None) eq_refl eq_refl)
           "What is six times seven?" eq_refl).
Defined.

(* ------------------------------------------------------------------ *)
(** ** Tool results *)

Lemma tool_call_response_decoded env function_call w args :
  arguments function_call = Encodes args ->
  tool_call_response env function_call w =
    (text <-
       (if String.eqb (name function_call) "search_brave" then
          has_query <- lift (contains "query" args) ;;
          if has_query : bool then
            query <- lift (getitem args "query") ;;
            search_result <- search_brave env query 10 ;;
            ret (json_dumps_indent2 (JArr (map SearchResult.asdict search_result)))
          else ret "No query found in arguments"
        else ret "") ;;
     ret (ToolResponse (id function_call) text)) w.
Proof.
  intros Ha. unfold tool_call_response, bind at 1. rewrite Ha. reflexivity.
Qed.

Lemma tool_call_response_malformed env function_call w msg :
  arguments function_call = NotJSON msg ->
  tool_call_response env function_call w = Raises (JSONDecodeError msg) w.
Proof.
  intros Ha. unfold tool_call_response, bind at 1. rewrite Ha. reflexivity.
Qed.

Lemma tool_call_response_refused env function_call w r :
  arguments function_call = Refused r ->
  tool_call_response env function_call w = Raises (refusal_exn r) w.
Proof.
  intros Ha. unfold tool_call_response, bind at 1. rewrite Ha. reflexivity.
Qed.

Lemma tool_call_response_tagged env function_call w m w' :
  tool_call_response env function_call w = Returns m w' ->
  tagged function_call m.
Proof.
  unfold tool_call_response, bind. intros H.
  destruct (lift (json_loads (arguments function_call)) w) as [args w0 | |];
    try discriminate.
  match type of H with
  | match ?X with _ => _ end = _ => destruct X as [text w1 | |]; try discriminate
  end.
  inversion H. exists text. reflexivity.
Qed.

Lemma run_tool_calls_answered env calls :
  forall h w h' w',
    run_tool_calls env calls h w = Returns h' w' ->
    exists msgs, h' = (h ++ msgs)%list /\ answered env calls w msgs w'.
Proof.
  induction calls as [| fc rest IH]; intros h w h' w' H; simpl in H.
  - inversion H; subst. exists []. rewrite app_nil_r. split; [reflexivity | constructor].
  - unfold bind in H.
    destruct (tool_call_response env fc w) as [m w1 | |] eqn:Hm; try discriminate.
    destruct (IH _ _ _ _ H) as (ms & -> & Hans).
    exists (m :: ms). rewrite <- app_assoc. split; [reflexivity |].
    econstructor; eassumption.
Qed.


Lemma answered_tagged env calls w msgs w' :
  answered env calls w msgs w' -> Forall2 tagged calls msgs.
Proof.
  induction 1; constructor; eauto using tool_call_response_tagged.
Qed.


(** Tool calls before a malformed one are answered; the malformed one
    raises, and nothing is appended for it or after it. *)
Lemma run_tool_calls_abort env before :
  forall function_call after h w h1 w1 msg,
    arguments function_call = NotJSON msg ->
    run_tool_calls env before h w = Returns h1 w1 ->
    run_tool_calls env (before ++ function_call :: after) h w
      = Raises (JSONDecodeError msg) w1.
Proof.
  induction before as [| b before IH]; intros fc after h w h1 w1 msg Ha Hb; simpl in *.
  - inversion Hb; subst. unfold bind.
    rewrite (tool_call_response_malformed env fc w1 Ha). reflexivity.
  - unfold bind in *.
    destruct (tool_call_response env b w) as [m w0 | |]; try discriminate.
    eapply IH; eassumption.
Qed.

(** The serialization of a list never reads as the missing-query text. *)
Lemma dumps_list_not_diagnostic items :
  json_dumps_indent2 (JArr items) <> "No query found in arguments".
Proof.
  unfold json_dumps_indent2. destruct items; simpl; discriminate.
Qed.

(** The text [json.dumps(..., indent=2)] writes for one search result. *)
Example json_dumps_one_result :
  json_dumps_indent2
    (JArr (map SearchResult.asdict
             [SearchResult.mk (JStr "a") (JStr "u") (JStr "d") (JArr [])]))
  = "[" ++ ToolScenario.line "  " "{"
    ++ ToolScenario.line "    " (ToolScenario.quoted "title" ++ ": " ++ ToolScenario.quoted "a" ++ ",")
    ++ ToolScenario.line "    " (ToolScenario.quoted "url" ++ ": " ++ ToolScenario.quoted "u" ++ ",")
    ++ ToolScenario.line "    "
         (ToolScenario.quoted "description" ++ ": " ++ ToolScenario.quoted "d" ++ ",")
    ++ ToolScenario.line "    " (ToolScenario.quoted "extra_snippets" ++ ": []")
    ++ ToolScenario.line "  " "}"
    ++ ToolScenario.line "" "]".
Proof. reflexivity. Qed.

(** A run of two turns: the model asks for one search, the search runs
    once, one tool result is appended after the assistant reply, and the
    second reply's text is returned. *)
Example two_turn_run :
  process_user_query ToolScenario.researcher 2 "q" world0
  = Returns (Some "done")
      (mkWorld [search_request ToolScenario.researcher (JStr "x") 10]
               ["Let me look that up."; "Got results"]
               []
               [initial_history "q";
                (initial_history "q"
                 ++ [Assistant ToolScenario.first_reply; ToolResponse "call_7" "[]"])%list]).
Proof. reflexivity. Qed.




(** C10. A tool-invocation-request whose argument blob is not valid JSON
    makes the argument decode raise, whatever tool it names; no tool-result
    message is appended for it, the requests after it are not run, and the
    exception leaves [process_user_query]'s loop at that turn.  A message
    with the missing-query text, and any tool-result message at all, is only
    ever produced for a blob that decodes; and a search request whose blob
    decodes to an object without a [query] key does get that message. *)
Theorem malformed_arguments_abort env :
  (forall function_call w msg,
     arguments function_call = NotJSON msg ->
     tool_call_response env function_call w = Raises (JSONDecodeError msg) w)
  /\ (forall before function_call after h w h1 w1 msg,
        arguments function_call = NotJSON msg ->
        run_tool_calls env before h w = Returns h1 w1 ->
        run_tool_calls env (before ++ function_call :: after) h w
          = Raises (JSONDecodeError msg) w1)
  /\ (forall fuel h w m before function_call after msg h1 w1,
        completion env h brave_search_tools = Ret m ->
        tool_calls m = Some (before ++ function_call :: after)%list ->
        arguments function_call = NotJSON msg ->
        run_tool_calls env before (h ++ [Assistant m])%list (echoed m (consulted h w))
          = Returns h1 w1 ->
        conversation env (S fuel) h w = Raises (JSONDecodeError msg) w1)
  /\ (forall function_call w m w',
        tool_call_response env function_call w = Returns m w' ->
        exists args,
          arguments function_call = Encodes args
          /\ (m = ToolResponse (id function_call) "No query found in arguments" ->
              name function_call = "search_brave"
              /\ contains "query" args = Ret false))
  /\ (forall function_call w fields,
        arguments function_call = Encodes (JObj fields) ->
        name function_call = "search_brave" ->
        lookup "query" fields = None ->
        tool_call_response env function_call w
          = Returns (ToolResponse (id function_call) "No query found in arguments") w).
Proof.
  split; [| split; [| split; [| split]]].
  - intros. apply tool_call_response_malformed. assumption.
  - intros. eapply run_tool_calls_abort; eassumption.
  - intros fuel h w m before fc after msg h1 w1 Hc Htc Ha Hb.
    assert (Hy : has_tool_calls m = true).
    { unfold has_tool_calls. rewrite Htc. destruct before; reflexivity. }
    rewrite conversation_step, (turn_tools env h w Hc Hy). unfold bind, pending.
    rewrite Htc, (run_tool_calls_abort env before fc after _ _ Ha Hb). reflexivity.
  - intros fc w m w' H.
    destruct (arguments fc) as [msg | r | args] eqn:Ha.
    + rewrite (tool_call_response_malformed env fc w Ha) in H. discriminate.
    + rewrite (tool_call_response_refused env fc w Ha) in H. discriminate.
    + exists args. split; [reflexivity |]. intros ->.
      rewrite (tool_call_response_decoded env fc w Ha) in H. unfold bind in H.
      destruct (String.eqb_spec (name fc) "search_brave") as [Hn | Hn].
      * split; [exact Hn |].
        destruct (contains "query" args) as [[|] | e]; simpl in H; try discriminate;
          [| reflexivity].
        exfalso.
        destruct (lift (getitem args "query") w) as [q w0 | |]; try discriminate.
        destruct (search_brave env q 10 w0) as [rs w1 | |]; try discriminate.
        unfold ret in H. inversion H as [[Htext Hw]].
        exact (dumps_list_not_diagnostic _ Htext).
      * unfold ret in H. discriminate.
  - intros fc w fields Ha Hn Hl.
    rewrite (tool_call_response_decoded env fc w Ha). apply String.eqb_eq in Hn.
    unfold bind, contains, has_key. rewrite Hn, Hl. reflexivity.
Qed.

Lemma malformed_arguments_abort_witness :
  conversation LoopScenario.careless 1 (initial_history "q") world0
    = Raises (JSONDecodeError "Unterminated string starting at: line 1 column 11 (char 10)")
        (consulted (initial_history "q") world0).
Proof.
  exact (proj1 (proj2 (proj2 (malformed_arguments_abort LoopScenario.careless)))
           0%nat (initial_history "q") world0
           (mkReply None (Some [LoopScenario.truncated_call]))
           [] LoopScenario.truncated_call [] _ _ _ eq_refl eq_refl eq_refl eq_refl).
Defined.

(* ------------------------------------------------------------------ *)
(** ** The fuel of the search loop is enough *)

Lemma attempts_total env h p fuel :
  forall retries w,
    (Z.to_nat (max_retries - retries) < fuel)%nat ->
    attempts env fuel h p retries w <> OutOfFuel.
Proof.
  induction fuel as [| fuel IH]; intros retries w Hfuel; [lia |].
  simpl attempts.
  destruct (Z.ltb_spec retries max_retries) as [Hlt | Hge]; [| discriminate].
  unfold try_except. rewrite attempt_spec.
  destruct (attempt_result env (transport env (List.length (net w)) (GET search_url h p)))
    as [e | v]; [| discriminate].
  destruct (is_RequestException e); [| discriminate].
  unfold bind at 1. simpl print.
  destruct (Z.ltb_spec (retries + 1) max_retries) as [Hnext | Hlast]; [| discriminate].
  unfold bind, sleep. apply IH. unfold max_retries in *. lia.
Qed.

Lemma search_brave_total env query count w :
  search_brave env query count w <> OutOfFuel.
Proof.
  unfold search_brave.
  destruct (negb (truthy query)); [discriminate |].
  destruct (negb (truthy (JStr (environ_get env "BRAVE_SEARCH_AI_API_KEY" ""))));
    [discriminate |].
  unfold bind.
  pose proof (@attempts_total env
                [("Accept", "application/json");
                 ("X-Subscription-Token", environ_get env "BRAVE_SEARCH_AI_API_KEY" "")]
                [("q", query); ("count", JInt count)] search_fuel 0 w) as Htotal.
  destruct (attempts env search_fuel _ _ 0 w) as [exit w' | e w' |].
  - destruct exit as [v | rs |]; try discriminate.
    destruct (parse_results v); discriminate.
  - discriminate.
  - exfalso. apply Htotal; [| reflexivity]. unfold max_retries, search_fuel. simpl. lia.
Qed.

Lemma tool_call_response_total env function_call w :
  tool_call_response env function_call w <> OutOfFuel.
Proof.
  unfold tool_call_response, bind.
  destruct (arguments function_call) as [msg | r | args]; simpl;
    [discriminate | discriminate |].
  destruct (String.eqb (name function_call) "search_brave"); simpl; [| discriminate].
  destruct (contains "query" args) as [[|] | e]; simpl; try discriminate.
  destruct (getitem args "query") as [q | e]; simpl; [| discriminate].
  pose proof (@search_brave_total env q 10 w) as Htotal.
  destruct (search_brave env q 10 w); [discriminate | discriminate | contradiction].
Qed.

Lemma run_tool_calls_total env calls :
  forall h w, run_tool_calls env calls h w <> OutOfFuel.
Proof.
  induction calls as [| fc rest IH]; intros h w; simpl; [discriminate |].
  unfold bind. pose proof (@tool_call_response_total env fc w) as Htotal.
  destruct (tool_call_response env fc w); [apply IH | discriminate | contradiction].
Qed.

(** A turn always finishes: it hands over the next conversation, returns
    the answer, or raises. *)
Lemma turn_total env h w : turn env h w <> OutOfFuel.
Proof.
  unfold turn, bind at 1. rewrite ask_llm_spec.
  destruct (completion env h brave_search_tools) as [m | e]; [| discriminate].
  destruct (has_tool_calls m); [| discriminate].
  unfold bind.
  destruct (content m) as [[| c s] |]; simpl;
    match goal with
    | |- match ?X with _ => _ end <> _ =>
        pose proof (@run_tool_calls_total env (pending m) (h ++ [Assistant m])%list) as Htotal;
        destruct X eqn:Hr; [discriminate | discriminate | exfalso; eapply Htotal; exact Hr]
    end.
Qed.

(* ------------------------------------------------------------------ *)
(** ** Termination of the loop *)

(** More fuel does not change a finished run. *)
Lemma conversation_fuel_mono env fuel :
  forall h w answer w',
    conversation env fuel h w = Returns answer w' ->
    forall more, conversation env (fuel + more) h w = Returns answer w'.
Proof.
  induction fuel as [| fuel IH]; intros h w answer w' H more; [discriminate |].
  change (S fuel + more)%nat with (S (fuel + more)).
  rewrite conversation_step in *.
  destruct (turn env h w) as [[h1 | a] w1 | e w1 |]; try discriminate; auto.
Qed.

Lemma restless_never_finishes fuel :
  forall h w, conversation LoopScenario.restless fuel h w = OutOfFuel.
Proof.
  induction fuel as [| fuel IH]; intros h w; [reflexivity |].
  rewrite conversation_step.
  rewrite (@turn_tools LoopScenario.restless h w
             (mkReply None (Some [mkToolCall "call_0" "lookup" (Encodes (JObj []))]))
             eq_refl eq_refl).
  simpl. apply IH.
Qed.

Lemma conversation_returns_last_reply env fuel :
  forall h w answer w',
    conversation env fuel h w = Returns answer w' ->
    exists earlier h_last m,
      asked w' = (earlier ++ [h_last])%list
      /\ completion env h_last brave_search_tools = Ret m
      /\ has_tool_calls m = false
      /\ answer = content m.
Proof.
  induction fuel as [| fuel IH]; intros h w answer w' H; [discriminate |].
  rewrite conversation_step in H.
  destruct (completion env h brave_search_tools) as [m | e] eqn:Hc.
  - destruct (has_tool_calls m) eqn:Hy.
    + destruct (turn env h w) as [[h1 | a] w1 | e w1 |] eqn:Ht; try discriminate.
      * eapply IH; eassumption.
      * rewrite (turn_tools env h w Hc Hy) in Ht. unfold bind in Ht.
        destruct (run_tool_calls env (pending m) (h ++ [Assistant m])%list
                    (echoed m (consulted h w))); discriminate.
    + rewrite (turn_final env h w Hc Hy) in H. inversion H; subst.
      exists (asked w), h, m. auto.
  - unfold turn, bind in H. rewrite ask_llm_spec, Hc in H. discriminate.
Qed.

(** A reply that carries a tool-invocation-request after which the loop
    makes no further model call: the request's blob is no JSON, the decode
    raises and the loop is left, for any fuel, though the model never gave a
    reply without tool-invocation-requests. *)
Lemma loop_left_by_exception :
  has_tool_calls (mkReply None (Some [LoopScenario.truncated_call])) = true
  /\ (forall history tools,
        completion LoopScenario.careless history tools
        = Ret (mkReply None (Some [LoopScenario.truncated_call])))
  /\ (forall fuel,
        process_user_query LoopScenario.careless (S fuel) "q" world0
        = Raises (JSONDecodeError "Unterminated string starting at: line 1 column 11 (char 10)")
            (mkWorld [] [] [] [initial_history "q"])).
Proof.
  split; [reflexivity | split; [reflexivity |]].
  intros fuel. unfold process_user_query. rewrite conversation_step. reflexivity.
Qed.

(** C9 (amended). The loop has no turn limit.  A turn returns from the function
    exactly when the model's reply carries no tool-invocation-requests; a
    turn whose reply carries some never returns: it hands the extended
    conversation to another turn, or an exception raised while the requests
    are run leaves the loop; and a turn whose model call raises leaves the
    loop with that exception, at whatever turn it happens.  When the
    requests are all answered the loop goes on to another model call,
    whatever the number of turns already taken; a value the function
    returns is always the text of a reply without tool-invocation-requests,
    the last one the model gave; if the model never gives such a reply the
    function returns for no amount of fuel; and there is a model (one that
    asks for a tool at every turn) for which no amount of fuel ends the
    run, by return or by exception. *)
Theorem no_turn_limit :
  (forall env h w m,
     completion env h brave_search_tools = Ret m ->
     (has_tool_calls m = false <-> exists answer w', turn env h w = Returns (inr answer) w'))
  /\ (forall env h w m,
        completion env h brave_search_tools = Ret m ->
        has_tool_calls m = true ->
        (exists h' w',
           turn env h w = Returns (inl h') w'
           /\ run_tool_calls env (pending m) (h ++ [Assistant m])%list
                (echoed m (consulted h w)) = Returns h' w')
        \/ (exists e w',
              turn env h w = Raises e w'
              /\ run_tool_calls env (pending m) (h ++ [Assistant m])%list
                   (echoed m (consulted h w)) = Raises e w'))
  /\ (forall env fuel h w e,
        completion env h brave_search_tools = Exc e ->
        turn env h w = Raises e (consulted h w)
        /\ conversation env (S fuel) h w = Raises e (consulted h w))
  /\ (forall env fuel h w m h' w',
        completion env h brave_search_tools = Ret m ->
        has_tool_calls m = true ->
        run_tool_calls env (pending m) (h ++ [Assistant m])%list (echoed m (consulted h w))
          = Returns h' w' ->
        conversation env (S fuel) h w = conversation env fuel h' w')
  /\ (forall env fuel query w answer w',
        process_user_query env fuel query w = Returns answer w' ->
        (forall more, process_user_query env (fuel + more) query w = Returns answer w')
        /\ exists earlier h_last m,
             asked w' = (earlier ++ [h_last])%list
             /\ completion env h_last brave_search_tools = Ret m
             /\ has_tool_calls m = false
             /\ answer = content m)
  /\ (forall env,
        (forall h m, completion env h brave_search_tools = Ret m -> has_tool_calls m = true) ->
        forall fuel query w answer w',
          process_user_query env fuel query w <> Returns answer w')
  /\ (forall fuel query w,
        process_user_query LoopScenario.restless fuel query w = OutOfFuel).
Proof.
  assert (Hret : forall env h w m,
            completion env h brave_search_tools = Ret m ->
            (has_tool_calls m = false
             <-> exists answer w', turn env h w = Returns (inr answer) w')).
  { intros env h w m Hc. split.
    + intros Hn. rewrite (turn_final env h w Hc Hn). eauto.
    + intros (answer & w' & Ht). destruct (has_tool_calls m) eqn:Hy; [| reflexivity].
      rewrite (turn_tools env h w Hc Hy) in Ht. unfold bind in Ht.
      destruct (run_tool_calls env (pending m) (h ++ [Assistant m])%list
                  (echoed m (consulted h w))); discriminate. }
  split; [exact Hret | split; [| split; [| split; [| split; [| split]]]]].
  - intros env h w m Hc Hy.
    pose proof (@turn_total env h w) as Htotal.
    rewrite (turn_tools env h w Hc Hy) in *. unfold bind in *.
    destruct (run_tool_calls env (pending m) (h ++ [Assistant m])%list
                (echoed m (consulted h w))) as [h' w' | e w' |].
    + left. exists h', w'. auto.
    + right. exists e, w'. auto.
    + exfalso. apply Htotal. reflexivity.
  - intros env fuel h w e Hc.
    assert (Ht : turn env h w = Raises e (consulted h w)).
    { unfold turn, bind. rewrite ask_llm_spec, Hc. reflexivity. }
    split; [exact Ht |]. rewrite conversation_step, Ht. reflexivity.
  - intros env fuel h w m h' w' Hc Hy Hr.
    rewrite conversation_step, (turn_tools env h w Hc Hy). unfold bind. rewrite Hr.
    reflexivity.
  - intros env fuel query w answer w' H. split.
    + intros more. apply conversation_fuel_mono. exact H.
    + eapply conversation_returns_last_reply. exact H.
  - intros env Hall fuel query w answer w' H.
    destruct (conversation_returns_last_reply env fuel _ _ H)
      as (earlier & h_last & m & _ & Hc & Hn & _).
    rewrite (Hall h_last m Hc) in Hn. discriminate.
  - intros fuel query w. apply restless_never_finishes.
Qed.

(* ================================================================== *)
(** * Further properties of the code *)

(* ------------------------------------------------------------------ *)
(** ** The content tool, every outcome *)

Lemma URLContent_kwargs_accepts v r :
  URLContent_kwargs v = Ret r ->
  exists fields title text,
    v = JObj fields
    /\ (forall k x, In (k, x) fields -> k = "title" \/ k = "text" \/ k = "error")
    /\ lookup "title" fields = Some title
    /\ lookup "text" fields = Some text
    /\ r = URLContent.mk title text (get fields "error" JNull).
Proof.
  unfold URLContent_kwargs. intros H.
  destruct v as [ | | | | | | fields]; try discriminate.
  destruct (forallb _ fields) eqn:Hkeys; [| discriminate].
  destruct (lookup "title" fields) as [title |] eqn:Hti; [| discriminate].
  destruct (lookup "text" fields) as [text |] eqn:Hte; [| discriminate].
  inversion H; subst. exists fields, title, text.
  split; [reflexivity |]. split; [| split; [exact Hti | split; [exact Hte | reflexivity]]].
  intros k x Hin. rewrite forallb_forall in Hkeys. specialize (Hkeys _ Hin). simpl in Hkeys.
  apply orb_true_iff in Hkeys. destruct Hkeys as [Hk | Hk].
  - apply orb_true_iff in Hk. destruct Hk as [Hk | Hk]; apply String.eqb_eq in Hk; auto.
  - apply String.eqb_eq in Hk; auto.
Qed.

Lemma URLContent_kwargs_shape fields title text :
  (forall k x, In (k, x) fields -> k = "title" \/ k = "text" \/ k = "error") ->
  lookup "title" fields = Some title ->
  lookup "text" fields = Some text ->
  URLContent_kwargs (JObj fields)
    = Ret (URLContent.mk title text (get fields "error" JNull)).
Proof.
  intros Hkeys Hti Hte. unfold URLContent_kwargs.
  replace (forallb _ fields) with true.
  - rewrite Hti, Hte. reflexivity.
  - symmetry. apply forallb_forall. intros [k x] Hin. simpl.
    destruct (Hkeys k x Hin) as [-> | [-> | ->]]; reflexivity.
Qed.

Lemma URLContent_kwargs_rejects v e :
  URLContent_kwargs v = Exc e -> exists msg, e = TypeError msg.
Proof.
  unfold URLContent_kwargs. intros H.
  destruct v as [ | | | | | | fields]; try (inversion H; eauto; fail).
  destruct (forallb _ fields); [| inversion H; eauto].
  destruct (lookup "title" fields); [| inversion H; eauto].
  destruct (lookup "text" fields); inversion H; eauto.
Qed.

Lemma URLContent_kwargs_total v :
  (exists r, URLContent_kwargs v = Ret r) \/ (exists e, URLContent_kwargs v = Exc e).
Proof. destruct (URLContent_kwargs v); eauto. Qed.

(** X1. Whatever the service answers, [get_url_content] sends exactly one
    request, the POST of [{url, is_blog: true}] to the convert endpoint,
    and does nothing else to the world (no print, no sleep, no model
    call), whether it returns a record or raises. *)
Theorem get_url_content_single_request env url w :
  (exists r, get_url_content env url w = Returns r (sent (convert_request url) w))
  \/ (exists e, get_url_content env url w = Raises e (sent (convert_request url) w)).
Proof.
  destruct (transport env (List.length (net w)) (convert_request url))
    as [response | e] eqn:Ht.
  - rewrite (get_url_content_unfold env url w Ht).
    destruct (negb (status_code response =? 200)); [left; eauto |].
    unfold try_except, bind, Response_json.
    destruct (body response) as [msg | [msg | msg] | v].
    + left. destruct (release env); simpl; eauto.
    + right. simpl. eauto.
    + left. simpl. eauto.
    + unfold ret. destruct (URLContent_kwargs v) as [r | e] eqn:Hk; simpl.
      * left; eauto.
      * destruct (URLContent_kwargs_rejects v Hk) as [msg ->]. simpl. right; eauto.
  - right. exists e. unfold get_url_content, bind. rewrite request_answer.
    fold (convert_request url). rewrite Ht. reflexivity.
Qed.

(** X2. When the response has status 200 and its body decodes to an object
    with a [title] and a [text] entry and no key besides [title], [text]
    and [error], [get_url_content] returns the record that carries these
    values, [error] being [None] when the body has no such entry. *)
Theorem get_url_content_success env url w response fields title text :
  transport env (List.length (net w)) (convert_request url) = Ret response ->
  status_code response = 200 ->
  body response = Encodes (JObj fields) ->
  (forall k x, In (k, x) fields -> k = "title" \/ k = "text" \/ k = "error") ->
  lookup "title" fields = Some title ->
  lookup "text" fields = Some text ->
  get_url_content env url w
    = Returns (URLContent.mk title text (get fields "error" JNull))
        (sent (convert_request url) w).
Proof.
  intros Ht Hs Hb Hkeys Hti Hte.
  rewrite (get_url_content_unfold env url w Ht), Hs. simpl negb. cbv iota.
  unfold try_except, bind, Response_json. rewrite Hb. unfold ret.
  rewrite (URLContent_kwargs_shape fields Hkeys Hti Hte). reflexivity.
Qed.

Lemma get_url_content_success_witness :
  get_url_content (Scenario.answering since_2_27 ExtraScenario.page) "http://a" world0
    = Returns (URLContent.mk (JStr "T") (JStr "X") JNull)
        (sent (convert_request "http://a") world0).
Proof.
  apply (@get_url_content_success (Scenario.answering since_2_27 ExtraScenario.page)
           "http://a" world0 ExtraScenario.page
           [("title", JStr "T"); ("text", JStr "X")] (JStr "T") (JStr "X"));
    try reflexivity.
  intros k x [H | [H | []]]; inversion H; auto.
Defined.

(** X3. When the response has status 200 and its body decodes to a value
    that is not of the expected shape (not an object, a key besides
    [title], [text] and [error], or no [title] or no [text]),
    [get_url_content] raises a [TypeError]; no error record is made. *)
Theorem get_url_content_wrong_shape env url w response v :
  transport env (List.length (net w)) (convert_request url) = Ret response ->
  status_code response = 200 ->
  body response = Encodes v ->
  ~ expected_shape v ->
  exists msg,
    get_url_content env url w = Raises (TypeError msg) (sent (convert_request url) w).
Proof.
  intros Ht Hs Hb Hshape.
  rewrite (get_url_content_unfold env url w Ht), Hs. simpl negb. cbv iota.
  unfold try_except, bind, Response_json. rewrite Hb. unfold ret.
  destruct (URLContent_kwargs v) as [r | e] eqn:Hk.
  - exfalso. apply Hshape.
    destruct (URLContent_kwargs_accepts v Hk) as (fields & title & text & H1 & H2 & H3 & H4 & _).
    exists fields, title, text. auto.
  - destruct (URLContent_kwargs_rejects v Hk) as [msg ->]. exists msg. reflexivity.
Qed.

Lemma get_url_content_wrong_shape_witness :
  exists msg,
    get_url_content (Scenario.answering since_2_27 ExtraScenario.page_with_author)
      "http://a" world0
    = Raises (TypeError msg) (sent (convert_request "http://a") world0).
Proof.
  apply (@get_url_content_wrong_shape
           (Scenario.answering since_2_27 ExtraScenario.page_with_author)
           "http://a" world0 ExtraScenario.page_with_author
           (JObj [("title", JStr "T"); ("text", JStr "X"); ("author", JStr "A")]));
    try reflexivity.
  intros (fields & title & text & Hv & Hkeys & _).
  inversion Hv; subst.
  destruct (Hkeys "author" (JStr "A")) as [H | [H | H]]; try discriminate.
  simpl. auto.
Defined.

(** X4. [get_url_content] raises only in three ways: the POST itself
    raised (that exception is passed on); the response had status 200 and
    the decoder gave up on its body, nested too deep, with a
    [RecursionError], which the handler for [ValueError] does not catch; or
    the response had status 200 and a body that decodes to a value of the
    wrong shape (a [TypeError]).  A status other than 200, a body that is
    no JSON document and a body with an integer of too many digits never
    raise. *)
Theorem get_url_content_raises_only env url w e w' :
  get_url_content env url w = Raises e w' ->
  transport env (List.length (net w)) (convert_request url) = Exc e
  \/ (exists response msg,
        transport env (List.length (net w)) (convert_request url) = Ret response
        /\ status_code response = 200
        /\ body response = Refused (TooDeep msg)
        /\ e = RecursionError msg)
  \/ (exists response v msg,
        transport env (List.length (net w)) (convert_request url) = Ret response
        /\ status_code response = 200
        /\ body response = Encodes v
        /\ ~ expected_shape v
        /\ e = TypeError msg).
Proof.
  intros Hrun.
  destruct (transport env (List.length (net w)) (convert_request url))
    as [response | e0] eqn:Ht.
  - right. rewrite (get_url_content_unfold env url w Ht) in Hrun.
    destruct (Z.eqb_spec (status_code response) 200) as [Hs | Hs]; simpl in Hrun;
      [| discriminate].
    unfold try_except, bind, Response_json in Hrun.
    destruct (body response) as [msg | [msg | msg] | v] eqn:Hb.
    + destruct (release env); simpl in Hrun; discriminate.
    + left. simpl in Hrun. inversion Hrun; subst.
      exists response, msg. auto.
    + simpl in Hrun. discriminate.
    + right. unfold ret in Hrun.
      destruct (URLContent_kwargs v) as [r | e1] eqn:Hk; simpl in Hrun; [discriminate |].
      destruct (URLContent_kwargs_rejects v Hk) as [msg ->]. simpl in Hrun.
      inversion Hrun; subst.
      exists response, v, msg. repeat split; auto.
      intros (fields & title & text & -> & Hkeys & Hti & Hte).
      rewrite (URLContent_kwargs_shape fields Hkeys Hti Hte) in Hk. discriminate.
  - left. unfold get_url_content, bind in Hrun. rewrite request_answer in Hrun.
    fold (convert_request url) in Hrun. rewrite Ht in Hrun. inversion Hrun. reflexivity.
Qed.

Lemma get_url_content_raises_only_witness :
  transport Scenario.offline 0 (convert_request "http://a")
    = Exc (ConnectionError "connection refused")
  \/ (exists response msg,
        transport Scenario.offline 0 (convert_request "http://a") = Ret response
        /\ status_code response = 200
        /\ body response = Refused (TooDeep msg)
        /\ ConnectionError "connection refused" = RecursionError msg)
  \/ (exists response v msg,
        transport Scenario.offline 0 (convert_request "http://a") = Ret response
        /\ status_code response = 200
        /\ body response = Encodes v
        /\ ~ expected_shape v
        /\ ConnectionError "connection refused" = TypeError msg).
Proof.
  apply (@get_url_content_raises_only Scenario.offline "http://a" world0
           (ConnectionError "connection refused") (sent (convert_request "http://a") world0)).
  reflexivity.
Defined.

(* ------------------------------------------------------------------ *)
(** ** The search tool, every outcome *)

Lemma delays_at_most_two (j : nat) :
  (j <= 2)%nat -> delays 0 j = firstn j [2; 4].
Proof.
  intros Hj. destruct j as [| [| [| j]]]; try reflexivity. lia.
Qed.

Ltac one_request :=
  exists 1%nat;
  split; [lia |];
  split; [unfold max_retries in *; lia |];
  split; [reflexivity |];
  split; [simpl; rewrite app_nil_r; reflexivity | reflexivity].

Section Trace.
Variable env : Env.
Variable h : list (string * string).
Variable p : list (string * json).
Let c : NetCall := GET search_url h p.

(** Wherever the loop stops, it has sent [k] requests, with [k] at most
    the number of attempts left, and slept the backoffs between them. *)
Lemma attempts_trace fuel :
  forall retries w w',
    final_world (attempts env fuel h p retries w) = Some w' ->
    exists k,
      (retries < max_retries -> (1 <= k)%nat)
      /\ (k <= Z.to_nat (max_retries - retries))%nat
      /\ net w' = (net w ++ repeat c k)%list
      /\ slept w' = (slept w ++ delays retries (k - 1))%list
      /\ asked w' = asked w.
Proof.
  induction fuel as [| fuel IH]; intros retries w w' Hw; [discriminate |].
  destruct (Z.ltb_spec retries max_retries) as [Hlt | Hge].
  - destruct (attempt_result env (transport env (List.length (net w)) c))
      as [e | v] eqn:Hres.
    + destruct (is_RequestException e) eqn:Hre.
      * rewrite (@failed_attempt env h p fuel retries w e Hlt Hres Hre) in Hw.
        destruct (Z.ltb_spec (retries + 1) max_retries) as [Hnext | Hlast].
        -- destruct (IH _ _ _ Hw) as (k & Hk1 & Hk & Hnet & Hslept & Hasked).
           specialize (Hk1 Hnext).
           exists (S k). split; [lia |]. split; [unfold max_retries in *; lia |].
           simpl in Hnet, Hslept, Hasked. split; [| split].
           ++ rewrite Hnet, <- app_assoc. reflexivity.
           ++ rewrite Hslept, <- app_assoc.
              destruct k as [| k]; [lia |]. simpl. rewrite Nat.sub_0_r. reflexivity.
           ++ exact Hasked.
        -- inversion Hw; subst. one_request.
      * rewrite (@fatal_attempt env h p fuel retries w e Hlt Hres Hre) in Hw.
        inversion Hw; subst. one_request.
    + rewrite (@good_attempt env h p fuel retries w v Hlt Hres) in Hw.
      inversion Hw; subst. one_request.
  - simpl in Hw. apply Z.ltb_ge in Hge. rewrite Hge in Hw. inversion Hw; subst.
    apply Z.ltb_ge in Hge. exists 0%nat.
    split; [lia |]. split; [lia |].
    split; [simpl; rewrite app_nil_r; reflexivity |].
    split; [simpl; rewrite app_nil_r; reflexivity | reflexivity].
Qed.

(** The handler lets no [RequestException] out of the loop. *)
Lemma attempts_raises fuel :
  forall retries w e w',
    attempts env fuel h p retries w = Raises e w' -> is_RequestException e = false.
Proof.
  induction fuel as [| fuel IH]; intros retries w e w' Hw; [discriminate |].
  destruct (Z.ltb_spec retries max_retries) as [Hlt | Hge].
  - destruct (attempt_result env (transport env (List.length (net w)) c))
      as [e0 | v] eqn:Hres.
    + destruct (is_RequestException e0) eqn:Hre.
      * rewrite (@failed_attempt env h p fuel retries w e0 Hlt Hres Hre) in Hw.
        destruct (retries + 1 <? max_retries); [eapply IH; exact Hw | discriminate].
      * rewrite (@fatal_attempt env h p fuel retries w e0 Hlt Hres Hre) in Hw.
        inversion Hw; subst. exact Hre.
    + rewrite (@good_attempt env h p fuel retries w v Hlt Hres) in Hw. discriminate.
  - simpl in Hw. apply Z.ltb_ge in Hge. rewrite Hge in Hw. discriminate.
Qed.

(** With an attempt left, the loop is never left through its condition. *)
Lemma attempts_not_exhausted fuel :
  forall retries w w',
    retries < max_retries ->
    attempts env fuel h p retries w <> Returns Exhausted w'.
Proof.
  induction fuel as [| fuel IH]; intros retries w w' Hlt Hw; [discriminate |].
  destruct (attempt_result env (transport env (List.length (net w)) c))
    as [e0 | v] eqn:Hres.
  - destruct (is_RequestException e0) eqn:Hre.
    + rewrite (@failed_attempt env h p fuel retries w e0 Hlt Hres Hre) in Hw.
      destruct (Z.ltb_spec (retries + 1) max_retries) as [Hnext | Hlast];
        [exact (IH _ _ _ Hnext Hw) | discriminate].
    + rewrite (@fatal_attempt env h p fuel retries w e0 Hlt Hres Hre) in Hw. discriminate.
  - rewrite (@good_attempt env h p fuel retries w v Hlt Hres) in Hw. discriminate.
Qed.

End Trace.

Lemma parse_results_rejects v e :
  parse_results v = Exc e ->
  (exists msg, e = AttributeError msg) \/ (exists msg, e = TypeError msg).
Proof.
  unfold parse_results. intros H.
  destruct v as [ | | | | | | top]; try (inversion H; eauto; fail).
  destruct (get top "web" (JObj [])) as [ | | | | | | web]; try (inversion H; eauto; fail).
  destruct (iterate (get web "results" (JArr []))) as [items | e0] eqn:Hit.
  - clear Hit. revert e H. induction items as [| item rest IH]; intros e H; simpl in H;
      [discriminate |].
    destruct item as [ | | | | | | fields]; simpl in H; try (inversion H; eauto; fail).
    destruct (results_of_items rest) as [rs | e1]; [discriminate |].
    inversion H; subst. apply IH. reflexivity.
  - inversion H; subst.
    destruct (get web "results" (JArr [])); simpl in Hit; inversion Hit; eauto.
Qed.

(** The trace of a whole call. *)
Lemma search_brave_trace env query count w :
  exists w' k,
    final_world (search_brave env query count w) = Some w'
    /\ (k <= 3)%nat
    /\ net w' = (net w ++ repeat (search_request env query count) k)%list
    /\ slept w' = (slept w ++ firstn (k - 1) [2; 4])%list
    /\ asked w' = asked w.
Proof.
  unfold search_brave.
  destruct (negb (truthy query)).
  { exists w, 0%nat. simpl. rewrite !app_nil_r. repeat split; auto. }
  fold (api_key env).
  destruct (negb (truthy (JStr (api_key env)))).
  { eexists. exists 0%nat. simpl. split; [reflexivity |]. simpl.
    rewrite !app_nil_r. repeat split; auto. }
  fold (search_headers env). fold (search_params query count). unfold bind.
  pose proof (@attempts_total env (search_headers env) (search_params query count)
                search_fuel 0 w) as Htotal.
  pose proof (@attempts_trace env (search_headers env) (search_params query count)
                search_fuel 0 w) as Htrace.
  destruct (attempts env search_fuel (search_headers env) (search_params query count) 0 w)
    as [exit w1 | e w1 |] eqn:Hrun.
  - destruct (Htrace w1 eq_refl) as (k & _ & Hk & Hnet & Hslept & Hasked).
    assert (Hk3 : (k <= 3)%nat) by (unfold max_retries in Hk; lia).
    assert (Hfinal : exists w', final_world
              (match exit with
               | Break results_json => lift (parse_results results_json)
               | Return results => ret results
               | Exhausted => raise (UnboundLocalError "results_json")
               end w1) = Some w' /\ w' = w1).
    { destruct exit as [v | rs |]; simpl; eauto.
      destruct (parse_results v); simpl; eauto. }
    destruct Hfinal as (w' & Hfinal & ->).
    exists w1, k. rewrite Hfinal. fold (search_request env query count) in Hnet.
    rewrite <- delays_at_most_two by lia. auto.
  - destruct (Htrace w1 eq_refl) as (k & _ & Hk & Hnet & Hslept & Hasked).
    assert (Hk3 : (k <= 3)%nat) by (unfold max_retries in Hk; lia).
    exists w1, k. simpl. fold (search_request env query count) in Hnet.
    rewrite <- delays_at_most_two by lia. auto.
  - exfalso. apply Htotal; [| reflexivity]. unfold max_retries, search_fuel. simpl. lia.
Qed.

(** X5. Whatever the network does, a call of [search_brave] finishes having
    sent at most three requests, all of them the same GET (the query and
    count as parameters, the credential as header); the sleeps it took are
    the first [k - 1] of 2 and 4 seconds when it sent [k] requests, so it
    never sleeps more than 6 seconds; and it never calls the model. *)
Theorem search_brave_bounds env query count w :
  exists w' k,
    final_world (search_brave env query count w) = Some w'
    /\ (k <= 3)%nat
    /\ net w' = (net w ++ repeat (search_request env query count) k)%list
    /\ slept w' = (slept w ++ firstn (k - 1) [2; 4])%list
    /\ asked w' = asked w.
Proof. apply search_brave_trace. Qed.

(** X6. No [RequestException] ever leaves [search_brave]: whatever it
    raises is an exception the retry handler does not catch. *)
Theorem search_brave_swallows_request_exceptions env query count w e w' :
  search_brave env query count w = Raises e w' ->
  is_RequestException e = false.
Proof.
  unfold search_brave.
  destruct (negb (truthy query)); [discriminate |].
  destruct (negb (truthy (JStr (environ_get env "BRAVE_SEARCH_AI_API_KEY" ""))));
    [discriminate |].
  unfold bind. intros H.
  match type of H with
  | match ?X with _ => _ end = _ => destruct X as [exit w1 | e1 w1 |] eqn:Hrun
  end.
  - destruct exit as [v | rs |]; simpl in H.
    + destruct (parse_results v) as [rs | e1] eqn:Hp; simpl in H; [discriminate |].
      inversion H; subst.
      destruct (parse_results_rejects v Hp) as [[msg ->] | [msg ->]]; reflexivity.
    + discriminate.
    + inversion H; subst. reflexivity.
  - inversion H; subst. eapply attempts_raises. exact Hrun.
  - discriminate.
Qed.

Lemma search_brave_swallows_request_exceptions_witness :
  is_RequestException (JSONDecodeError "Expecting value: line 1 column 1 (char 0)") = false.
Proof.
  apply (@search_brave_swallows_request_exceptions
           (Scenario.answering before_2_27 SearchScenario.ok_garbled) (JStr "rocq") 10 world0
           (JSONDecodeError "Expecting value: line 1 column 1 (char 0)")
           (sent (search_request (Scenario.answering before_2_27 SearchScenario.ok_garbled)
                    (JStr "rocq") 10) world0)).
  reflexivity.
Defined.

(** X7. When control leaves the retry loop of [search_brave] for the
    parsing of the results, [results_json] is bound: the loop, entered with
    no attempt made, is never left through its condition. *)
Theorem search_brave_results_json_bound env h p w w' :
  attempts env search_fuel h p 0 w <> Returns Exhausted w'.
Proof.
  apply attempts_not_exhausted. unfold max_retries. lia.
Qed.

(* ------------------------------------------------------------------ *)
(** ** The search tool, the answered attempt *)

Lemma http_error_none response :
  ~ (400 <= status_code response < 600) -> http_error response = None.
Proof.
  intros Hs. unfold http_error.
  destruct (Z.leb_spec 400 (status_code response));
    destruct (Z.ltb_spec (status_code response) 500);
    destruct (Z.leb_spec 500 (status_code response));
    destruct (Z.ltb_spec (status_code response) 600); simpl; try reflexivity; lia.
Qed.

(** The first attempt is answered with a status [raise_for_status] lets
    through and a body that decodes: one request, and the body is parsed. *)
Lemma search_brave_first_answer env query count w response v :
  truthy query = true ->
  api_key env <> "" ->
  transport env (List.length (net w)) (search_request env query count) = Ret response ->
  ~ (400 <= status_code response < 600) ->
  body response = Encodes v ->
  search_brave env query count w
    = lift (parse_results v) (printed "Got results" (sent (search_request env query count) w)).
Proof.
  intros Hq Hk Ht Hs Hb.
  rewrite search_brave_guarded by assumption. unfold search_main, bind.
  change search_fuel with (S 3).
  rewrite (@good_attempt env (search_headers env) (search_params query count) 3 0 w v).
  - reflexivity.
  - unfold max_retries. lia.
  - fold (search_request env query count). rewrite Ht. unfold attempt_result.
    rewrite (http_error_none response Hs), Hb. reflexivity.
Qed.

Lemma results_of_objects fieldss :
  results_of_items (map JObj fieldss) = Ret (map record_of fieldss).
Proof.
  induction fieldss as [| fields rest IH]; simpl; [reflexivity |].
  rewrite IH. reflexivity.
Qed.

Lemma results_of_items_not_object items :
  forall x,
    In x items ->
    (forall fields, x <> JObj fields) ->
    exists msg, results_of_items items = Exc (AttributeError msg).
Proof.
  induction items as [| item rest IH]; intros x Hin Hx; [destruct Hin |].
  simpl. destruct item as [ | | | | | | fields]; simpl; eauto.
  destruct Hin as [<- | Hin]; [exfalso; exact (Hx fields eq_refl) |].
  destruct (IH x Hin Hx) as [msg ->]. eauto.
Qed.

(** X8. When the first attempt is answered with a decodable body whose
    [web.results] is a list of objects, [search_brave] returns one result
    per item, in the order of the body, each field taken from the item or
    defaulted ([''] for title, url and description, [[]] for
    extra_snippets); [count] is only sent with the request and never cuts
    the list. *)
Theorem search_brave_returns_every_item env query count w response top web fieldss :
  truthy query = true ->
  api_key env <> "" ->
  transport env (List.length (net w)) (search_request env query count) = Ret response ->
  ~ (400 <= status_code response < 600) ->
  body response = Encodes (JObj top) ->
  lookup "web" top = Some (JObj web) ->
  lookup "results" web = Some (JArr (map JObj fieldss)) ->
  search_brave env query count w
    = Returns (map record_of fieldss)
        (printed "Got results" (sent (search_request env query count) w)).
Proof.
  intros Hq Hk Ht Hs Hb Hweb Hres.
  rewrite (search_brave_first_answer env query count w Hq Hk Ht Hs Hb).
  unfold parse_results, get. rewrite Hweb, Hres. simpl iterate. cbv iota.
  rewrite results_of_objects. reflexivity.
Qed.

Lemma search_brave_returns_every_item_witness :
  search_brave (Scenario.answering since_2_27 ExtraScenario.two_hits) (JStr "rocq") 1 world0
    = Returns
        [SearchResult.mk (JStr "Rocq") (JStr "https://rocq-prover.org")
           (JStr "A proof assistant") (JArr [JStr "a"; JStr "b"]);
         SearchResult.mk (JStr "Stdlib") (JStr "https://rocq-prover.org/stdlib")
           (JStr "") (JArr [])]
        (printed "Got results"
           (sent (search_request (Scenario.answering since_2_27 ExtraScenario.two_hits)
                    (JStr "rocq") 1) world0)).
Proof.
  apply (@search_brave_returns_every_item
           (Scenario.answering since_2_27 ExtraScenario.two_hits) (JStr "rocq") 1 world0
           ExtraScenario.two_hits
           [("web", JObj [("results", JArr [JObj ExtraScenario.first_hit;
                                            JObj ExtraScenario.second_hit])])]
           [("results", JArr [JObj ExtraScenario.first_hit; JObj ExtraScenario.second_hit])]
           [ExtraScenario.first_hit; ExtraScenario.second_hit]);
    try reflexivity.
  - unfold api_key, environ_get. simpl. discriminate.
  - simpl. lia.
Defined.

(** X9. The defaults of the body's [web] and [results] entries apply to
    absent keys only.  With the first attempt answered by an object body:
    no [web] entry, or a [web] object without [results], gives the empty
    list; a [web] entry that is null raises [AttributeError]; a [results]
    entry that is null raises [TypeError]. *)
Theorem search_brave_absent_or_null env query count w response top :
  truthy query = true ->
  api_key env <> "" ->
  transport env (List.length (net w)) (search_request env query count) = Ret response ->
  ~ (400 <= status_code response < 600) ->
  body response = Encodes (JObj top) ->
  (lookup "web" top = None ->
   search_brave env query count w
     = Returns [] (printed "Got results" (sent (search_request env query count) w)))
  /\ (forall web,
        lookup "web" top = Some (JObj web) ->
        lookup "results" web = None ->
        search_brave env query count w
          = Returns [] (printed "Got results" (sent (search_request env query count) w)))
  /\ (lookup "web" top = Some JNull ->
      exists msg,
        search_brave env query count w
          = Raises (AttributeError msg)
              (printed "Got results" (sent (search_request env query count) w)))
  /\ (forall web,
        lookup "web" top = Some (JObj web) ->
        lookup "results" web = Some JNull ->
        exists msg,
          search_brave env query count w
            = Raises (TypeError msg)
                (printed "Got results" (sent (search_request env query count) w))).
Proof.
  intros Hq Hk Ht Hs Hb.
  rewrite (search_brave_first_answer env query count w Hq Hk Ht Hs Hb).
  unfold parse_results, get. repeat split.
  - intros ->. reflexivity.
  - intros web -> ->. reflexivity.
  - intros ->. eexists. reflexivity.
  - intros web -> ->. eexists. reflexivity.
Qed.

Lemma search_brave_absent_or_null_witness :
  exists msg,
    search_brave (Scenario.answering since_2_27 ExtraScenario.null_web_answer)
      (JStr "rocq") 10 world0
    = Raises (AttributeError msg)
        (printed "Got results"
           (sent (search_request
                    (Scenario.answering since_2_27 ExtraScenario.null_web_answer)
                    (JStr "rocq") 10) world0)).
Proof.
  refine (proj1 (proj2 (proj2
    (@search_brave_absent_or_null
       (Scenario.answering since_2_27 ExtraScenario.null_web_answer)
       (JStr "rocq") 10 world0 ExtraScenario.null_web_answer
       [("web", JNull)] eq_refl _ eq_refl _ eq_refl))) eq_refl).
  - unfold api_key, environ_get. simpl. discriminate.
  - simpl. lia.
Defined.

(** X10. One item of the results list that is not an object makes
    [search_brave] raise [AttributeError]: no result is returned, not even
    for the well-formed items before it. *)
Theorem search_brave_malformed_item env query count w response top web items x :
  truthy query = true ->
  api_key env <> "" ->
  transport env (List.length (net w)) (search_request env query count) = Ret response ->
  ~ (400 <= status_code response < 600) ->
  body response = Encodes (JObj top) ->
  lookup "web" top = Some (JObj web) ->
  lookup "results" web = Some (JArr items) ->
  In x items ->
  (forall fields, x <> JObj fields) ->
  exists msg,
    search_brave env query count w
      = Raises (AttributeError msg)
          (printed "Got results" (sent (search_request env query count) w)).
Proof.
  intros Hq Hk Ht Hs Hb Hweb Hres Hin Hx.
  rewrite (search_brave_first_answer env query count w Hq Hk Ht Hs Hb).
  unfold parse_results, get. rewrite Hweb, Hres. simpl iterate. cbv iota.
  destruct (results_of_items_not_object items Hin Hx) as [msg ->].
  exists msg. reflexivity.
Qed.

Lemma search_brave_malformed_item_witness :
  exists msg,
    search_brave (Scenario.answering since_2_27 ExtraScenario.stray_answer)
      (JStr "rocq") 10 world0
    = Raises (AttributeError msg)
        (printed "Got results"
           (sent (search_request (Scenario.answering since_2_27 ExtraScenario.stray_answer)
                    (JStr "rocq") 10) world0)).
Proof.
  refine (@search_brave_malformed_item
            (Scenario.answering since_2_27 ExtraScenario.stray_answer)
            (JStr "rocq") 10 world0 ExtraScenario.stray_answer
            [("web", JObj [("results", JArr ExtraScenario.stray_items)])]
            [("results", JArr ExtraScenario.stray_items)]
            ExtraScenario.stray_items (JStr "stray")
            eq_refl _ eq_refl _ eq_refl eq_refl eq_refl _ _).
  - unfold api_key, environ_get. simpl. discriminate.
  - simpl. lia.
  - simpl. auto.
  - intros fields. discriminate.
Defined.


(* ------------------------------------------------------------------ *)
(** ** What the model is told of a search *)

(** A search request with a [query] entry runs the search on it. *)
Lemma tool_call_search env function_call w fields query :
  arguments function_call = Encodes (JObj fields) ->
  name function_call = "search_brave" ->
  lookup "query" fields = Some query ->
  tool_call_response env function_call w =
    (search_result <- search_brave env query 10 ;;
     ret (ToolResponse (id function_call)
            (json_dumps_indent2 (JArr (map SearchResult.asdict search_result))))) w.
Proof.
  intros Ha Hn Hl. rewrite (tool_call_response_decoded env function_call w Ha).
  apply String.eqb_eq in Hn. unfold bind at 1. rewrite Hn.
  unfold bind, contains, has_key, getitem. rewrite Hl. simpl.
  destruct (search_brave env query 10 w); reflexivity.
Qed.

(** X12. A search request whose [query] is empty (or any other false
    value: null, false, 0, an empty list or object) is answered with the
    text of the empty list, without any request and without a trace in the
    world; so is one with a query when the credential is missing, after the
    error line is printed. *)
Theorem tool_call_search_skipped env function_call w fields query :
  arguments function_call = Encodes (JObj fields) ->
  name function_call = "search_brave" ->
  lookup "query" fields = Some query ->
  (truthy query = false ->
   tool_call_response env function_call w
     = Returns (ToolResponse (id function_call) "[]") w)
  /\ (truthy query = true ->
      api_key env = "" ->
      tool_call_response env function_call w
        = Returns (ToolResponse (id function_call) "[]")
            (printed "Error: Missing Brave Search API key." w)).
Proof.
  intros Ha Hn Hl. rewrite (tool_call_search env function_call w Ha Hn Hl).
  unfold bind, search_brave. fold (api_key env). split.
  - intros ->. reflexivity.
  - intros -> ->. reflexivity.
Qed.

Lemma tool_call_search_skipped_witness :
  tool_call_response ToolScenario.searching ExtraScenario.empty_query_call world0
    = Returns (ToolResponse "call_5" "[]") world0.
Proof.
  refine (proj1 (@tool_call_search_skipped ToolScenario.searching
                   ExtraScenario.empty_query_call world0
                   [("query", JStr "")] (JStr "") eq_refl eq_refl eq_refl) eq_refl).
Defined.

(** X13. When all three attempts of the search fail, the tool result the
    model gets is the text of the empty list, the same as for a search
    without hits: the failure is not reported to the model. *)
Theorem tool_call_search_failed env function_call w fields query :
  arguments function_call = Encodes (JObj fields) ->
  name function_call = "search_brave" ->
  lookup "query" fields = Some query ->
  truthy query = true ->
  api_key env <> "" ->
  (forall j, (j < 3)%nat ->
     attempt_fails env
       (transport env (List.length (net w) + j)%nat (search_request env query 10)) = true) ->
  exists w',
    tool_call_response env function_call w
      = Returns (ToolResponse (id function_call) "[]") w'
    /\ net w' = (net w ++ [search_request env query 10; search_request env query 10;
                           search_request env query 10])%list
    /\ slept w' = (slept w ++ [2; 4])%list.
Proof.
  intros Ha Hn Hl Hq Hk Hfail.
  rewrite (tool_call_search env function_call w Ha Hn Hl). unfold bind.
  destruct (@search_brave_gives_up env query 10 w Hq Hk Hfail) as (w' & -> & Hnet & Hslept).
  exists w'. repeat split; assumption.
Qed.

Lemma tool_call_search_failed_witness :
  exists w',
    tool_call_response SearchScenario.unreachable ToolScenario.search_call world0
      = Returns (ToolResponse "call_7" "[]") w'
    /\ net w' = [search_request SearchScenario.unreachable (JStr "rocq") 10;
                 search_request SearchScenario.unreachable (JStr "rocq") 10;
                 search_request SearchScenario.unreachable (JStr "rocq") 10]
    /\ slept w' = [2; 4].
Proof.
  refine (@tool_call_search_failed SearchScenario.unreachable ToolScenario.search_call world0
            [("query", JStr "rocq")] (JStr "rocq") eq_refl eq_refl eq_refl eq_refl _ _).
  - unfold api_key, environ_get. simpl. discriminate.
  - intros j Hj. reflexivity.
Defined.

(* ------------------------------------------------------------------ *)
(** ** What the loop does to the world *)

Lemma repeat_search_requests env query k :
  Forall (is_search_request env) (repeat (search_request env query 10) k).
Proof.
  apply Forall_forall. intros c Hin. apply repeat_spec in Hin. subst. exists query. reflexivity.
Qed.

Lemma tool_call_response_frame env function_call w w' :
  final_world (tool_call_response env function_call w) = Some w' ->
  exists extra,
    net w' = (net w ++ extra)%list
    /\ Forall (is_search_request env) extra
    /\ asked w' = asked w.
Proof.
  assert (Hsame : forall w0 : World,
            exists extra,
              net w0 = (net w0 ++ extra)%list
              /\ Forall (is_search_request env) extra /\ asked w0 = asked w0).
  { intros w0. exists []. rewrite app_nil_r. auto. }
  unfold tool_call_response, bind.
  destruct (arguments function_call) as [msg | r | args]; simpl.
  1, 2: intros H; inversion H; subst; apply Hsame.
  destruct (String.eqb (name function_call) "search_brave"); simpl.
  2: { intros H; inversion H; subst. apply Hsame. }
  destruct (contains "query" args) as [[|] | e]; simpl.
  2, 3: intros H; inversion H; subst; apply Hsame.
  destruct (getitem args "query") as [q | e]; simpl.
  2: { intros H; inversion H; subst. apply Hsame. }
  destruct (search_brave_trace env q 10 w) as (w1 & k & Hw1 & _ & Hnet & _ & Hasked).
  destruct (search_brave env q 10 w) as [rs w2 | e w2 |]; simpl in *; try discriminate;
    inversion Hw1; subst; intros H; inversion H; subst;
    exists (repeat (search_request env q 10) k);
    (split; [assumption | split; [apply repeat_search_requests | assumption]]).
Qed.

Lemma run_tool_calls_frame env calls :
  forall h w w',
    final_world (run_tool_calls env calls h w) = Some w' ->
    exists extra,
      net w' = (net w ++ extra)%list
      /\ Forall (is_search_request env) extra
      /\ asked w' = asked w.
Proof.
  induction calls as [| fc rest IH]; intros h w w' H; simpl in H.
  - inversion H; subst. exists []. rewrite app_nil_r. auto.
  - unfold bind in H.
    destruct (tool_call_response env fc w) as [m w1 | e w1 |] eqn:Hm; try discriminate.
    + destruct (@tool_call_response_frame env fc w w1) as (x1 & Hn1 & Hf1 & Ha1);
        [rewrite Hm; reflexivity |].
      destruct (IH _ _ _ H) as (x2 & Hn2 & Hf2 & Ha2).
      exists (x1 ++ x2)%list. rewrite Hn2, Hn1, Ha2, Ha1, app_assoc.
      repeat split; auto. apply Forall_app; auto.
    + simpl in H. inversion H; subst.
      apply (@tool_call_response_frame env fc w w'). rewrite Hm. reflexivity.
Qed.

(** One turn: the conversation is shown to the model once; the requests
    sent are searches; the turn hands over the conversation extended by the
    reply and its tool results, or returns, or raises. *)
Lemma turn_frame env h w w' :
  final_world (turn env h w) = Some w' ->
  exists extra,
    net w' = (net w ++ extra)%list
    /\ Forall (is_search_request env) extra
    /\ asked w' = (asked w ++ [h])%list
    /\ (forall h' w1,
          turn env h w = Returns (inl h') w1 ->
          exists m msgs,
            completion env h brave_search_tools = Ret m
            /\ has_tool_calls m = true
            /\ h' = (h ++ Assistant m :: msgs)%list
            /\ answered env (pending m) (echoed m (consulted h w)) msgs w1).
Proof.
  intros Hw.
  destruct (completion env h brave_search_tools) as [m | e] eqn:Hc.
  - destruct (has_tool_calls m) eqn:Hy.
    + rewrite (turn_tools env h w Hc Hy) in *. unfold bind in *.
      destruct (run_tool_calls env (pending m) (h ++ [Assistant m])%list
                  (echoed m (consulted h w))) as [h1 w1 | e w1 |] eqn:Hr; try discriminate.
      * destruct (@run_tool_calls_frame env (pending m) (h ++ [Assistant m])%list
                    (echoed m (consulted h w)) w1) as (x & Hn & Hf & Ha);
          [rewrite Hr; reflexivity |].
        inversion Hw; subst. exists x.
        assert (Hnet : net (echoed m (consulted h w)) = net w)
          by (unfold echoed; destruct (content m) as [[| c s] |]; reflexivity).
        assert (Hask : asked (echoed m (consulted h w)) = (asked w ++ [h])%list)
          by (unfold echoed; destruct (content m) as [[| c s] |]; reflexivity).
        rewrite Hn, Ha, Hnet, Hask. repeat split; auto.
        intros h' w2 H. inversion H; subst.
        destruct (run_tool_calls_answered env _ _ _ Hr) as (msgs & -> & Hans).
        exists m, msgs. rewrite <- app_assoc. auto.
      * destruct (@run_tool_calls_frame env (pending m) (h ++ [Assistant m])%list
                    (echoed m (consulted h w)) w1) as (x & Hn & Hf & Ha);
          [rewrite Hr; reflexivity |].
        inversion Hw; subst. exists x.
        assert (Hnet : net (echoed m (consulted h w)) = net w)
          by (unfold echoed; destruct (content m) as [[| c s] |]; reflexivity).
        assert (Hask : asked (echoed m (consulted h w)) = (asked w ++ [h])%list)
          by (unfold echoed; destruct (content m) as [[| c s] |]; reflexivity).
        rewrite Hn, Ha, Hnet, Hask. repeat split; auto.
        intros h' w2 H. discriminate.
    + rewrite (turn_final env h w Hc Hy) in *. inversion Hw; subst.
      exists []. simpl. rewrite app_nil_r. repeat split; auto.
      intros h' w1 H. discriminate.
  - unfold turn, bind in *. rewrite ask_llm_spec, Hc in *. inversion Hw; subst.
    exists []. simpl. rewrite app_nil_r. repeat split; auto.
    intros h' w1 H. discriminate.
Qed.

Lemma conversation_frame env fuel :
  forall h w w',
    final_world (conversation env fuel h w) = Some w' ->
    exists extra convs,
      net w' = (net w ++ extra)%list
      /\ Forall (is_search_request env) extra
      /\ asked w' = (asked w ++ convs)%list
      /\ shown env h convs.
Proof.
  induction fuel as [| fuel IH]; intros h w w' Hw; [discriminate |].
  rewrite conversation_step in Hw.
  destruct (turn env h w) as [[h1 | answer] w1 | e w1 |] eqn:Ht; try discriminate.
  - destruct (@turn_frame env h w w1) as (x1 & Hn1 & Hf1 & Ha1 & Hnext);
      [rewrite Ht; reflexivity |].
    destruct (Hnext h1 w1 Ht) as (m & msgs & Hc & Hy & -> & Hans).
    destruct (IH _ _ _ Hw) as (x2 & convs & Hn2 & Hf2 & Ha2 & Hshown).
    exists (x1 ++ x2)%list, (h :: convs).
    split; [rewrite Hn2, Hn1, app_assoc; reflexivity |].
    split; [apply Forall_app; auto |].
    split; [rewrite Ha2, Ha1, <- app_assoc; reflexivity |].
    apply (@shown_next env h m msgs convs Hc Hy); [eauto | | exact Hshown].
    eapply answered_tagged; eassumption.
  - destruct (@turn_frame env h w w1) as (x1 & Hn1 & Hf1 & Ha1 & _);
      [rewrite Ht; reflexivity |].
    simpl in Hw. inversion Hw; subst.
    exists x1, [h]. repeat split; auto. constructor.
  - destruct (@turn_frame env h w w1) as (x1 & Hn1 & Hf1 & Ha1 & _);
      [rewrite Ht; reflexivity |].
    simpl in Hw. inversion Hw; subst.
    exists x1, [h]. repeat split; auto. constructor.
Qed.


(** X14. Every request a finished run of [process_user_query] has sent is
    a GET of the search endpoint with the credential header, some query and
    the count 10: the loop never posts to the content service, whatever the
    model asks for. *)
Theorem process_user_query_only_searches env fuel query w w' :
  final_world (process_user_query env fuel query w) = Some w' ->
  exists extra,
    net w' = (net w ++ extra)%list
    /\ forall c, In c extra ->
         exists q,
           c = GET search_url
                 [("Accept", "application/json");
                  ("X-Subscription-Token", environ_get env "BRAVE_SEARCH_AI_API_KEY" "")]
                 [("q", q); ("count", JInt 10)].
Proof.
  intros Hw. unfold process_user_query in Hw.
  destruct (conversation_frame env fuel _ _ Hw) as (extra & convs & Hn & Hf & _ & _).
  exists extra. split; [exact Hn |].
  intros c Hin. rewrite Forall_forall in Hf. destruct (Hf c Hin) as [q ->].
  exists q. reflexivity.
Qed.

Lemma process_user_query_only_searches_witness :
  exists extra,
    [search_request ToolScenario.researcher (JStr "x") 10] = ([] ++ extra)%list
    /\ forall c, In c extra ->
         exists q,
           c = GET search_url
                 [("Accept", "application/json");
                  ("X-Subscription-Token",
                   environ_get ToolScenario.researcher "BRAVE_SEARCH_AI_API_KEY" "")]
                 [("q", q); ("count", JInt 10)].
Proof.
  apply (@process_user_query_only_searches ToolScenario.researcher 2 "q" world0
           (mkWorld [search_request ToolScenario.researcher (JStr "x") 10]
                    ["Let me look that up."; "Got results"]
                    []
                    [initial_history "q";
                     (initial_history "q"
                      ++ [Assistant ToolScenario.first_reply;
                          ToolResponse "call_7" "[]"])%list])).
  reflexivity.
Defined.



(** X16. A model call that raises is neither caught nor repeated: at
    whatever turn it happens, the exception leaves the loop after that one
    call, with no request sent and nothing printed in that turn. *)
Theorem model_failure_aborts env fuel history w e :
  completion env history brave_search_tools = Exc e ->
  conversation env (S fuel) history w = Raises e (consulted history w).
Proof.
  intros Hc. rewrite conversation_step. unfold turn, bind.
  rewrite ask_llm_spec, Hc. reflexivity.
Qed.

Lemma model_failure_aborts_witness :
  process_user_query ExtraScenario.mute 1 "q" world0
    = Raises (APIError "service unavailable") (consulted (initial_history "q") world0).
Proof.
  apply (@model_failure_aborts ExtraScenario.mute 0 (initial_history "q") world0
           (APIError "service unavailable")).
  reflexivity.
Defined.

(* ------------------------------------------------------------------ *)
(** ** Printing a search result *)

Lemma all_strs_of_strs ss : PyStr.all_strs (map JStr ss) = Some ss.
Proof.
  induction ss as [| s rest IH]; simpl; [reflexivity |]. rewrite IH. reflexivity.
Qed.

Lemma all_strs_not_str items :
  forall x,
    In x items -> (forall s, x <> JStr s) -> PyStr.all_strs items = None.
Proof.
  induction items as [| item rest IH]; intros x Hin Hx; [destruct Hin |].
  destruct Hin as [<- | Hin].
  - destruct item; try reflexivity. exfalso. exact (Hx s eq_refl).
  - destruct item; try reflexivity. simpl. rewrite (IH x Hin Hx). reflexivity.
Qed.

(** X17. For a result whose extra snippets are a list of strs, [__str__]
    returns four labelled lines: the title, the url and the description as
    [str] writes them, and the snippets joined by a comma and a space (an
    empty last field when there is none). *)
Theorem SearchResult_str_text self snippets :
  SearchResult.extra_snippets self = JArr (map JStr snippets) ->
  SearchResult_str self
    = Ret ("Title: " ++ PyStr.str (SearchResult.title self) ++ String newline
           ("URL: " ++ PyStr.str (SearchResult.url self) ++ String newline
           ("Description: " ++ PyStr.str (SearchResult.description self) ++ String newline
           ("Extra Snippets: " ++ PyStr.join_strs ", " snippets)))).
Proof.
  intros Hs. unfold SearchResult_str, PyStr.join. rewrite Hs.
  change (iterate (JArr (map JStr snippets))) with (Ret (map JStr snippets)).
  cbv iota. rewrite all_strs_of_strs. reflexivity.
Qed.

Lemma SearchResult_str_text_witness :
  SearchResult_str (record_of ExtraScenario.first_hit)
    = Ret ("Title: Rocq" ++ String newline
           ("URL: https://rocq-prover.org" ++ String newline
           ("Description: A proof assistant" ++ String newline
            "Extra Snippets: a, b"))).
Proof.
  apply (@SearchResult_str_text (record_of ExtraScenario.first_hit) ["a"; "b"]).
  reflexivity.
Defined.

(** X18. [__str__] raises [TypeError] when the extra snippets cannot be
    joined: when they are null, a boolean or a number, and when they are a
    list with an item that is not a str.  A result parsed from an item
    without an [extra_snippets] entry never raises. *)
Theorem SearchResult_str_raises :
  (forall self,
     SearchResult.extra_snippets self = JNull
     \/ (exists b, SearchResult.extra_snippets self = JBool b)
     \/ (exists z, SearchResult.extra_snippets self = JInt z)
     \/ (exists r, SearchResult.extra_snippets self = JFloat r) ->
     exists msg, SearchResult_str self = Exc (TypeError msg))
  /\ (forall self items x,
        SearchResult.extra_snippets self = JArr items ->
        In x items ->
        (forall s, x <> JStr s) ->
        exists msg, SearchResult_str self = Exc (TypeError msg))
  /\ (forall fields,
        lookup "extra_snippets" fields = None ->
        exists text, SearchResult_str (record_of fields) = Ret text).
Proof.
  split; [| split].
  - intros self H. unfold SearchResult_str, PyStr.join.
    destruct H as [-> | [[b ->] | [[z ->] | [r ->]]]]; simpl; eauto.
  - intros self items x Hs Hin Hx. unfold SearchResult_str, PyStr.join.
    rewrite Hs. change (iterate (JArr items)) with (Ret items). cbv iota.
    rewrite (all_strs_not_str items Hin Hx). eauto.
  - intros fields Hl. unfold SearchResult_str, PyStr.join, record_of, get.
    rewrite Hl. simpl. eauto.
Qed.

(* ------------------------------------------------------------------ *)
(** ** The entry point *)

(** X19. When the model's first reply carries no tool-invocation-request,
    the program writes the prompt, calls the model once on the system
    prompt and the line typed, sends no request, and prints one line:
    [Response: ] followed by the reply's text, or by [None] when the reply
    has no text. *)
Theorem main_prints_response env fuel line w m :
  completion env (initial_history line) brave_search_tools = Ret m ->
  has_tool_calls m = false ->
  main env (S fuel) (Ret line) w
    = Returns tt
        (mkWorld (net w)
           (stdout w ++ ["What's your question? ";
                         "Response: " ++ match content m with
                                         | Some answer => answer
                                         | None => "None"
                                         end])
           (slept w)
           (asked w ++ [[RoleContent "system" first_llm_system_prompt;
                         RoleContent "user" line]])).
Proof.
  intros Hc Hn. unfold main, bind, input, process_user_query.
  rewrite conversation_step, (turn_final env (initial_history line) _ Hc Hn).
  unfold print, printed, consulted. simpl. rewrite <- app_assoc. reflexivity.
Qed.

Lemma main_prints_response_witness :
  main ExtraScenario.silent 1 (Ret "Anyone there?") world0
    = Returns tt
        (mkWorld []
           ["What's your question? "; "Response: None"]
           []
           [[RoleContent "system" first_llm_system_prompt;
             RoleContent "user" "Anyone there?"]]).
Proof.
  apply (@main_prints_response ExtraScenario.silent 0 "Anyone there?" world0
           (mkReply None None)); reflexivity.
Defined.

(* ------------------------------------------------------------------ *)
(** ** The echo of a tool-requesting reply *)

Lemma attempts_stdout env h p fuel :
  forall retries w w',
    final_world (attempts env fuel h p retries w) = Some w' ->
    exists lines, stdout w' = (stdout w ++ lines)%list.
Proof.
  induction fuel as [| fuel IH]; intros retries w w' Hw; [discriminate |].
  destruct (Z.ltb_spec retries max_retries) as [Hlt | Hge].
  - destruct (attempt_result env (transport env (List.length (net w)) (GET search_url h p)))
      as [e | v] eqn:Hres.
    + destruct (is_RequestException e) eqn:Hre.
      * rewrite (@failed_attempt env h p fuel retries w e Hlt Hres Hre) in Hw.
        destruct (retries + 1 <? max_retries).
        -- destruct (IH _ _ _ Hw) as (lines & Hl). simpl in Hl.
           exists (retry_line e :: lines). rewrite Hl, <- app_assoc. reflexivity.
        -- inversion Hw; subst. exists [retry_line e]. reflexivity.
      * rewrite (@fatal_attempt env h p fuel retries w e Hlt Hres Hre) in Hw.
        inversion Hw; subst. exists []. simpl. rewrite app_nil_r. reflexivity.
    + rewrite (@good_attempt env h p fuel retries w v Hlt Hres) in Hw.
      inversion Hw; subst. exists ["Got results"]. reflexivity.
  - simpl in Hw. apply Z.ltb_ge in Hge. rewrite Hge in Hw. inversion Hw; subst.
    exists []. rewrite app_nil_r. reflexivity.
Qed.

Lemma search_brave_stdout env query count w w' :
  final_world (search_brave env query count w) = Some w' ->
  exists lines, stdout w' = (stdout w ++ lines)%list.
Proof.
  unfold search_brave.
  destruct (negb (truthy query)).
  { intros H; inversion H; subst. exists []. rewrite app_nil_r. reflexivity. }
  destruct (negb (truthy (JStr (environ_get env "BRAVE_SEARCH_AI_API_KEY" "")))).
  { intros H; inversion H; subst. eexists. reflexivity. }
  unfold bind. intros H.
  match type of H with
  | final_world (match attempts _ _ ?hs ?ps _ _ with _ => _ end) = _ =>
      pose proof (fun w1 => @attempts_stdout env hs ps search_fuel 0 w w1) as Hs;
      destruct (attempts env search_fuel hs ps 0 w) as [exit w1 | e w1 |]; try discriminate
  end.
  - assert (Hw : w' = w1).
    { destruct exit as [v | rs |]; simpl in H; try (inversion H; reflexivity).
      destruct (parse_results v); simpl in H; inversion H; reflexivity. }
    subst. apply Hs. reflexivity.
  - inversion H; subst. apply Hs. reflexivity.
Qed.

Lemma tool_call_response_stdout env function_call w w' :
  final_world (tool_call_response env function_call w) = Some w' ->
  exists lines, stdout w' = (stdout w ++ lines)%list.
Proof.
  assert (Hsame : forall w0 : World, exists lines, stdout w0 = (stdout w0 ++ lines)%list).
  { intros w0. exists []. rewrite app_nil_r. reflexivity. }
  unfold tool_call_response, bind.
  destruct (arguments function_call) as [msg | r | args]; simpl.
  1, 2: intros H; inversion H; subst; apply Hsame.
  destruct (String.eqb (name function_call) "search_brave"); simpl.
  2: { intros H; inversion H; subst. apply Hsame. }
  destruct (contains "query" args) as [[|] | e]; simpl.
  2, 3: intros H; inversion H; subst; apply Hsame.
  destruct (getitem args "query") as [q | e]; simpl.
  2: { intros H; inversion H; subst. apply Hsame. }
  pose proof (@search_brave_stdout env q 10 w) as Hs.
  destruct (search_brave env q 10 w) as [rs w2 | e w2 |]; simpl in *; try discriminate;
    intros H; inversion H; subst; apply Hs; reflexivity.
Qed.

Lemma run_tool_calls_stdout env calls :
  forall h w w',
    final_world (run_tool_calls env calls h w) = Some w' ->
    exists lines, stdout w' = (stdout w ++ lines)%list.
Proof.
  induction calls as [| fc rest IH]; intros h w w' H; simpl in H.
  - inversion H; subst. exists []. rewrite app_nil_r. reflexivity.
  - unfold bind in H.
    destruct (tool_call_response env fc w) as [m w1 | e w1 |] eqn:Hm; try discriminate.
    + destruct (@tool_call_response_stdout env fc w w1) as (l1 & H1);
        [rewrite Hm; reflexivity |].
      destruct (IH _ _ _ H) as (l2 & H2).
      exists (l1 ++ l2)%list. rewrite H2, H1, app_assoc. reflexivity.
    + simpl in H. inversion H; subst.
      apply (@tool_call_response_stdout env fc w w'). rewrite Hm. reflexivity.
Qed.

(** X20. The text that comes with a tool-requesting reply is printed
    before any of the requests is run: whatever the turn prints after it
    (the lines of the search tool), that text is the first line the turn
    adds to the console.  A reply with tool-invocation-requests and no
    text, or the empty text, adds no line of its own. *)
Theorem turn_echo env h w m w' :
  completion env h brave_search_tools = Ret m ->
  has_tool_calls m = true ->
  final_world (turn env h w) = Some w' ->
  (forall text,
     content m = Some text -> text <> "" ->
     exists lines, stdout w' = (stdout w ++ text :: lines)%list)
  /\ (content m = None \/ content m = Some "" ->
      exists w0,
        stdout w0 = stdout w
        /\ final_world (run_tool_calls env (pending m) (h ++ [Assistant m])%list w0) = Some w').
Proof.
  intros Hc Hy Hw. rewrite (turn_tools env h w Hc Hy) in Hw. unfold bind in Hw.
  assert (Hrun : final_world (run_tool_calls env (pending m) (h ++ [Assistant m])%list
                                (echoed m (consulted h w))) = Some w').
  { destruct (run_tool_calls env (pending m) (h ++ [Assistant m])%list
                (echoed m (consulted h w))); simpl in *; congruence. }
  split.
  - intros text Ht Hne.
    destruct (run_tool_calls_stdout env _ _ _ Hrun) as (lines & Hl).
    exists lines. rewrite Hl. unfold echoed. rewrite Ht.
    destruct text as [| c s]; [contradiction |]. simpl. rewrite <- app_assoc. reflexivity.
  - intros Hnone. exists (echoed m (consulted h w)). split; [| exact Hrun].
    unfold echoed. destruct Hnone as [-> | ->]; reflexivity.
Qed.

Lemma turn_echo_witness :
  (forall text,
     content ToolScenario.first_reply = Some text -> text <> "" ->
     exists lines,
       ["Let me look that up."; "Got results"] = ([] ++ text :: lines)%list)
  /\ (content ToolScenario.first_reply = None \/ content ToolScenario.first_reply = Some "" ->
      exists w0,
        stdout w0 = []
        /\ final_world
             (run_tool_calls ToolScenario.researcher (pending ToolScenario.first_reply)
                (initial_history "q" ++ [Assistant ToolScenario.first_reply])%list w0)
           = Some (mkWorld [search_request ToolScenario.researcher (JStr "x") 10]
                     ["Let me look that up."; "Got results"] []
                     [initial_history "q"])).
Proof.
  apply (@turn_echo ToolScenario.researcher (initial_history "q") world0
           ToolScenario.first_reply
           (mkWorld [search_request ToolScenario.researcher (JStr "x") 10]
              ["Let me look that up."; "Got results"] [] [initial_history "q"]));
    reflexivity.
Defined.
